(** * Taskify: the task-scheduling and derived-view layer

    A shallow embedding of the pure logic of the Taskify calendar app
    ([App.tsx] in [README.md], [CalendarMonthView.tsx], [GoalTracker],
    [FocusMode], [TaskListView], [CalendarDayView]).

    Modelling conventions:
    - JS strings are [string]; [===] on strings is [String.eqb].
    - JS numbers used as integers are [Z].
    - [a.localeCompare(b)] on the ASCII date and time keys is the
      lexicographic code-unit order, [String_as_OT.compare], mapped to
      -1/0/1.
    - [Array.prototype.sort] is stable (ECMAScript 2019 and later); with a
      consistent comparator its result is the unique stable ordering, which
      we compute by insertion sort.
    - [Date] values are milliseconds since the epoch ([Z]); the local time
      zone is a fixed offset in minutes ([tz], positive east of UTC). *)

From Stdlib Require Import ZArith Lia List Bool String Ascii.
From Stdlib Require Import Sorting.Sorted Sorting.Permutation.
From Stdlib Require Import Structures.OrdersEx.
Import ListNotations.
Open Scope Z_scope.

(** ** Data model ([App.tsx]) *)

Inductive Priority := low | medium | high | urgent.
Inductive Category := work | personal | health | social | learning | other.
Inductive Recurring := daily | weekly | monthly.

Definition Priority_eqb (a b : Priority) : bool :=
  match a, b with
  | low, low | medium, medium | high, high | urgent, urgent => true
  | _, _ => false
  end.

Record Task := mkTask {
  id : string;
  title : string;
  description : string;
  date : string;
  time : option string;
  priority : Priority;
  category : Category;
  completed : bool;
  recurring : option Recurring;
  reminder : option bool;
  dependencies : option (list string);
  createdAt : string
}.

Record Goal := mkGoal {
  gid : string;
  gtitle : string;
  target : Z;
  current : Z;
  month : string;
  gcategory : Category
}.

(** JS truthiness of an optional string field: [undefined] and [''] are
    falsy. *)
Definition truthy (o : option string) : bool :=
  match o with
  | Some s => negb (String.eqb s EmptyString)
  | None => false
  end.

(** ** Task store ([App.tsx]: updateTask, deleteTask, toggleTaskComplete) *)

(** A [Partial<Task>]: every field optional; [{ ...t, ...updates }]
    overwrites exactly the fields present in [updates]. *)
Record TaskUpdate := mkTaskUpdate {
  u_id : option string;
  u_title : option string;
  u_description : option string;
  u_date : option string;
  u_time : option (option string);
  u_priority : option Priority;
  u_category : option Category;
  u_completed : option bool;
  u_recurring : option (option Recurring);
  u_reminder : option (option bool);
  u_dependencies : option (option (list string));
  u_createdAt : option string
}.

Definition override {A} (u : option A) (x : A) : A :=
  match u with Some v => v | None => x end.

Definition spread (t : Task) (u : TaskUpdate) : Task :=
  mkTask (override (u_id u) (id t)) (override (u_title u) (title t))
    (override (u_description u) (description t)) (override (u_date u) (date t))
    (override (u_time u) (time t)) (override (u_priority u) (priority t))
    (override (u_category u) (category t)) (override (u_completed u) (completed t))
    (override (u_recurring u) (recurring t)) (override (u_reminder u) (reminder t))
    (override (u_dependencies u) (dependencies t)) (override (u_createdAt u) (createdAt t)).

(** [tasks.map(t => (t.id === id ? { ...t, ...updates } : t))] *)
Definition updateTask (i : string) (u : TaskUpdate) (tasks : list Task) : list Task :=
  map (fun t => if String.eqb (id t) i then spread t u else t) tasks.

(** [tasks.filter(t => t.id !== id)] *)
Definition deleteTask (i : string) (tasks : list Task) : list Task :=
  filter (fun t => negb (String.eqb (id t) i)) tasks.

Definition flipCompleted (t : Task) : Task :=
  mkTask (id t) (title t) (description t) (date t) (time t) (priority t)
    (category t) (negb (completed t)) (recurring t) (reminder t)
    (dependencies t) (createdAt t).

(** [tasks.map(t => (t.id === id ? { ...t, completed: !t.completed } : t))] *)
Definition toggleTaskComplete (i : string) (tasks : list Task) : list Task :=
  map (fun t => if String.eqb (id t) i then flipCompleted t else t) tasks.

(** ** Goals ([App.tsx]: updateGoal; [GoalTracker]: incrementGoal,
    decrementGoal) *)

Definition setCurrent (g : Goal) (c : Z) : Goal :=
  mkGoal (gid g) (gtitle g) (target g) c (month g) (gcategory g).

(** [goals.map(g => (g.id === id ? { ...g, ...updates } : g))] with
    [updates = { current: c }] *)
Definition updateGoalCurrent (i : string) (c : Z) (goals : list Goal) : list Goal :=
  map (fun g => if String.eqb (gid g) i then setCurrent g c else g) goals.

(** [goals.find(g => g.id === id)] *)
Definition findGoal (i : string) (goals : list Goal) : option Goal :=
  find (fun g => String.eqb (gid g) i) goals.

(** [if (goal && goal.current < goal.target) onUpdateGoal(id, { current: goal.current + 1 })] *)
Definition incrementGoal (i : string) (goals : list Goal) : list Goal :=
  match findGoal i goals with
  | Some g => if current g <? target g then updateGoalCurrent i (current g + 1) goals else goals
  | None => goals
  end.

(** [if (goal && goal.current > 0) onUpdateGoal(id, { current: goal.current - 1 })] *)
Definition decrementGoal (i : string) (goals : list Goal) : list Goal :=
  match findGoal i goals with
  | Some g => if 0 <? current g then updateGoalCurrent i (current g - 1) goals else goals
  | None => goals
  end.

Definition goal_in_bounds (g : Goal) : Prop := 0 <= current g <= target g.

(** ** [Array.prototype.sort] with a comparator

    A comparator returns a number; [cmp a b <= 0] keeps [a] before [b].
    The sort is stable, so elements that compare equal keep their input
    order: inserting each element, from the last one to the first, before
    the first element it does not compare greater than. *)

Section JsSort.
Context {A : Type}.
Variable cmp : A -> A -> Z.

Fixpoint insert (x : A) (l : list A) : list A :=
  match l with
  | [] => [x]
  | y :: l' => if cmp x y <=? 0 then x :: y :: l' else y :: insert x l'
  end.

Definition js_sort (l : list A) : list A := fold_right insert [] l.

Definition cmp_le (x y : A) : Prop := cmp x y <= 0.
End JsSort.

(** ** String comparison *)

(** [a.localeCompare(b)] on ASCII keys: lexicographic order, as -1/0/1. *)
Definition localeCompare (a b : string) : Z :=
  match String_as_OT.compare a b with
  | Lt => -1
  | Eq => 0
  | Gt => 1
  end.

(** JS [a <= b] on strings: code-unit lexicographic order. *)
Definition str_le (a b : string) : bool :=
  match String_as_OT.compare a b with Gt => false | _ => true end.

(** ** Month view load classification ([CalendarMonthView]: getTaskLoad) *)

Inductive Load := Lnone | Llow | Lmedium | Lhigh | Lurgent.

Definition getTaskLoad (tasks : list Task) (d : string) : Load :=
  let dayTasks := filter (fun t => String.eqb (date t) d) tasks in
  let urgentCount := Z.of_nat (List.length (filter (fun t => Priority_eqb (priority t) urgent) dayTasks)) in
  let highCount := Z.of_nat (List.length (filter (fun t => Priority_eqb (priority t) high) dayTasks)) in
  if urgentCount >? 0 then Lurgent
  else if highCount >? 1 then Lhigh
  else if Z.of_nat (List.length dayTasks) >? 3 then Lmedium
  else if Z.of_nat (List.length dayTasks) >? 0 then Llow
  else Lnone.

(** ** Focus queue ([FocusMode]: todayTasks) *)

(** [const priorityOrder = { urgent: 0, high: 1, medium: 2, low: 3 }] *)
Definition priorityOrder (p : Priority) : Z :=
  match p with urgent => 0 | high => 1 | medium => 2 | low => 3 end.

Definition priorityCmp (a b : Task) : Z :=
  priorityOrder (priority a) - priorityOrder (priority b).

Definition isTodayOpen (today : string) (t : Task) : bool :=
  String.eqb (date t) today && negb (completed t).

(** [tasks.filter(t => t.date === today && !t.completed).sort(...)] *)
Definition focusQueue (today : string) (tasks : list Task) : list Task :=
  js_sort priorityCmp (filter (isTodayOpen today) tasks).

(** ** List view ([TaskListView]) *)

Definition timeStr (o : option string) : string :=
  match o with Some s => s | None => EmptyString end.

(** The comparator of [filteredTasks.sort]. *)
Definition listCmp (a b : Task) : Z :=
  let dateCompare := localeCompare (date a) (date b) in
  if negb (dateCompare =? 0) then dateCompare
  else if truthy (time a) && truthy (time b) then localeCompare (timeStr (time a)) (timeStr (time b))
  else if truthy (time a) then -1
  else if truthy (time b) then 1
  else 0.

(** [String.prototype.toLowerCase] on ASCII letters. *)
Definition lower_char (c : ascii) : ascii :=
  let n := nat_of_ascii c in
  if (65 <=? n)%nat && (n <=? 90)%nat then ascii_of_nat (n + 32) else c.

Fixpoint toLowerCase (s : string) : string :=
  match s with
  | EmptyString => EmptyString
  | String c s' => String (lower_char c) (toLowerCase s')
  end.

(** [String.prototype.includes]: [q] occurs at some position of [s]. *)
Fixpoint includes (s q : string) : bool :=
  if String.prefix q s then true
  else match s with
       | EmptyString => false
       | String _ s' => includes s' q
       end.

(** [String.prototype.trim] on ASCII white space. *)
Definition is_space (c : ascii) : bool :=
  match nat_of_ascii c with 9 | 10 | 11 | 12 | 13 | 32 => true | _ => false end%nat.

Fixpoint trim_left (s : string) : string :=
  match s with
  | String c s' => if is_space c then trim_left s' else s
  | EmptyString => EmptyString
  end.

Definition trim (s : string) : string :=
  string_of_list_ascii (rev (list_ascii_of_string
    (trim_left (string_of_list_ascii (rev (list_ascii_of_string (trim_left s))))))).

Definition str_truthy (s : string) : bool := negb (String.eqb s EmptyString).

(** The three filters of [TaskListView], in order. *)
Definition listFilter (startDate endDate searchQuery : string) (tasks : list Task) : list Task :=
  let f1 := if str_truthy startDate then filter (fun t => str_le startDate (date t)) tasks else tasks in
  let f2 := if str_truthy endDate then filter (fun t => str_le (date t) endDate) f1 else f1 in
  if str_truthy (trim searchQuery) then
    let query := toLowerCase searchQuery in
    filter (fun t => includes (toLowerCase (title t)) query
                     || includes (toLowerCase (description t)) query) f2
  else f2.

(** [filteredTasks], after the filters and the sort. *)
Definition listView (startDate endDate searchQuery : string) (tasks : list Task) : list Task :=
  js_sort listCmp (listFilter startDate endDate searchQuery tasks).

(** ** Focus timer ([FocusMode]) *)

Record Timer := mkTimer {
  pomodoroTime : Z;
  isRunning : bool;
  isBreak : bool;
  completedPomodoros : Z
}.

(** The synchronous part of the [useEffect] on [isRunning], [pomodoroTime],
    [isBreak]: when the timer is running with time left it only arms the
    interval; when the time is 0 it stops and switches phase. *)
Definition timerEffect (s : Timer) : Timer :=
  if isRunning s && (pomodoroTime s >? 0) then s
  else if pomodoroTime s =? 0 then
    if isBreak s then mkTimer (25 * 60) false false (completedPomodoros s)
    else mkTimer (5 * 60) false true (completedPomodoros s + 1)
  else s.

(** One firing of the interval, [setPomodoroTime(prev => prev - 1)],
    followed by the effect run of the re-render.  The interval is armed only
    while [isRunning && pomodoroTime > 0]. *)
Definition tick (s : Timer) : Timer :=
  if isRunning s && (pomodoroTime s >? 0) then
    timerEffect (mkTimer (pomodoroTime s - 1) (isRunning s) (isBreak s) (completedPomodoros s))
  else s.

Fixpoint ticks (n : nat) (s : Timer) : Timer :=
  match n with O => s | S n' => ticks n' (tick s) end.

(** ** Dates *)

Definition msPerDay : Z := 86400000.

(** Day number (days since 1970-01-01) of the proleptic Gregorian date
    [y]-[m]-[d], [m] in 1..12. *)
Definition days_from_civil (y m d : Z) : Z :=
  let y' := if m <=? 2 then y - 1 else y in
  let era := y' / 400 in
  let yoe := y' - era * 400 in
  let mp := (m + 9) mod 12 in
  let doy := (153 * mp + 2) / 5 + d - 1 in
  let doe := yoe * 365 + yoe / 4 - yoe / 100 + doy in
  era * 146097 + doe - 719468.

(** Inverse direction: the civil date (year, month 1..12, day) of a day
    number. *)
Definition civil_from_days (z0 : Z) : Z * Z * Z :=
  let z := z0 + 719468 in
  let era := z / 146097 in
  let doe := z - era * 146097 in
  let yoe := (doe - doe / 1460 + doe / 36524 - doe / 146096) / 365 in
  let y := yoe + era * 400 in
  let doy := doe - (365 * yoe + yoe / 4 - yoe / 100) in
  let mp := (5 * doy + 2) / 153 in
  let d := doy - (153 * mp + 2) / 5 + 1 in
  let m := if mp <? 10 then mp + 3 else mp - 9 in
  (if m <=? 2 then y + 1 else y, m, d).

(** ECMAScript [MakeDay(year, month, date)], [month] 0-based and
    normalised by floor division. *)
Definition MakeDay (year month dt : Z) : Z :=
  days_from_civil (year + month / 12) (month mod 12 + 1) 1 + dt - 1.

(** [new Date(year, month, day)]: local midnight, as a UTC time value, in a
    zone [tz] minutes east of UTC.  Two-digit years denote 1900 + year. *)
Definition newDate (tz year month dt : Z) : Z :=
  let year' := if (0 <=? year) && (year <=? 99) then 1900 + year else year in
  MakeDay year' month dt * msPerDay - tz * 60000.

Definition localDay (tz t : Z) : Z := (t + tz * 60000) / msPerDay.

(** [date.getDay()]: local weekday, Sunday = 0. *)
Definition getDay (tz t : Z) : Z := (localDay tz t + 4) mod 7.

(** [date.getDate()]: local day of the month. *)
Definition getDate (tz t : Z) : Z :=
  let '(_, _, d) := civil_from_days (localDay tz t) in d.

(** A time zone with at most one change of offset in the period
    considered: offset [offBefore] (minutes east of UTC) before the UTC
    instant [switchAt], [offAfter] from it on.  A zone without a change has
    [offBefore = offAfter]. *)
Record Zone := mkZone {
  offBefore : Z;
  offAfter : Z;
  switchAt : Z
}.

Definition offsetAt (z : Zone) (u : Z) : Z :=
  if u <? switchAt z then offBefore z else offAfter z.

(** ECMAScript [LocalTime(t)]. *)
Definition localTime (z : Zone) (u : Z) : Z := u + offsetAt z u * 60000.

(** ECMAScript [UTC(t)] of a local time value: the earliest instant whose
    local time is [t]; for a local time skipped by the change, the offset
    in effect before the change. *)
Definition utcOf (z : Zone) (t : Z) : Z :=
  let i1 := t - offBefore z * 60000 in
  let i2 := t - offAfter z * 60000 in
  if i1 <? switchAt z then i1
  else if switchAt z <=? i2 then i2
  else i1.

(** [date.setDate(date.getDate() - 1)]: ECMAScript sets the time value to
    [UTC(MakeDate(MakeDay(Y, M, D - 1), TimeWithinDay(t)))] with [t] the
    local time, that is [UTC(LocalTime(date) - msPerDay)]. *)
Definition previousDay (z : Zone) (t : Z) : Z := utcOf z (localTime z t - msPerDay).

Definition digit (n : Z) : ascii := ascii_of_nat (48 + Z.to_nat n).

(** The last [k] decimal digits of [n], zero-padded. *)
Fixpoint pad (k : nat) (n : Z) : string :=
  match k with
  | O => EmptyString
  | S k' => pad k' (n / 10) ++ String (digit (n mod 10)) EmptyString
  end.

Definition format_ymd (ymd : Z * Z * Z) : string :=
  let '(y, m, d) := ymd in
  (if (0 <=? y) && (y <=? 9999) then pad 4 y
   else if y <? 0 then "-" ++ pad 6 (- y) else "+" ++ pad 6 y)
  ++ "-" ++ pad 2 m ++ "-" ++ pad 2 d.

(** [date.toISOString().split('T')[0]]: the UTC calendar day.  This is the
    date key used by the month cells, the day view, the streak walk, the
    focus queue and the task form. *)
Definition dateKey (t : Z) : string :=
  format_ymd (civil_from_days (t / msPerDay)).

(** The key of the local calendar day of [t], for comparison. *)
Definition localDateKey (tz t : Z) : string :=
  format_ymd (civil_from_days (localDay tz t)).

(** The order the list view is specified to produce: by date, then timed
    tasks by time, then the untimed ones. *)
Definition list_order (a b : Task) : Prop :=
  String_as_OT.lt (date a) (date b)
  \/ (date a = date b /\
      ((truthy (time a) = true /\ truthy (time b) = true
        /\ ~ String_as_OT.lt (timeStr (time b)) (timeStr (time a)))
       \/ (truthy (time a) = true /\ truthy (time b) = false)
       \/ (truthy (time a) = false /\ truthy (time b) = false))).

(** [date.getFullYear()] and [date.getMonth()] (0-based), local. *)
Definition getFullYear (tz t : Z) : Z :=
  let '(y, _, _) := civil_from_days (localDay tz t) in y.

Definition getMonth (tz t : Z) : Z :=
  let '(_, m, _) := civil_from_days (localDay tz t) in m - 1.

(** [CalendarMonthView]: [previousMonth] and [nextMonth] set the selected
    date to [new Date(year, month - 1, 1)] and [new Date(year, month + 1, 1)]. *)
Definition previousMonth (tz selectedDate : Z) : Z :=
  newDate tz (getFullYear tz selectedDate) (getMonth tz selectedDate - 1) 1.

Definition nextMonth (tz selectedDate : Z) : Z :=
  newDate tz (getFullYear tz selectedDate) (getMonth tz selectedDate + 1) 1.

(** ** Month grid ([CalendarMonthView]: days) *)







(** ** Streak ([App.tsx]: calculateStreak) *)

Definition dayHasCompleted (tasks : list Task) (dateStr : string) : bool :=
  existsb (fun t => String.eqb (date t) dateStr && completed t) tasks.

(** The [while (true)] loop, from [checkDate] on, ending with the count it
    adds to [currentStreak], in the zone [z]. *)
Inductive streakLoop (z : Zone) (tasks : list Task) : Z -> nat -> Prop :=
| streak_stop checkDate :
    dayHasCompleted tasks (dateKey checkDate) = false ->
    streakLoop z tasks checkDate 0
| streak_step checkDate n :
    dayHasCompleted tasks (dateKey checkDate) = true ->
    streakLoop z tasks (previousDay z checkDate) n ->
    streakLoop z tasks checkDate (S n).

(** The same loop run for at most [fuel] iterations. *)
Fixpoint streakFuel (fuel : nat) (z : Zone) (tasks : list Task) (checkDate : Z) : option nat :=
  match fuel with
  | O => None
  | S fuel' =>
      if dayHasCompleted tasks (dateKey checkDate) then
        option_map S (streakFuel fuel' z tasks (previousDay z checkDate))
      else Some O
  end.

(** The count the spec describes: calendar days, by day number, from the
    day [day] backward, while each has a completed task (at most [fuel]
    days). *)
Fixpoint specStreak (fuel : nat) (tasks : list Task) (day : Z) : nat :=
  match fuel with
  | O => O
  | S fuel' =>
      if dayHasCompleted tasks (format_ymd (civil_from_days day))
      then S (specStreak fuel' tasks (day - 1)) else O
  end.

(** New York around the start of daylight saving time in 2024: UTC-5
    until 2024-03-10T07:00Z, UTC-4 from then on. *)
Definition newYork2024 : Zone := mkZone (-300) (-240) 1710054000000.

(** ** Drag and drop ([CalendarMonthView]: handleTaskDrop) *)

(** The update [{ date: newDate }]. *)
Definition dateUpdate (d : string) : TaskUpdate :=
  mkTaskUpdate None None None (Some d) None None None None None None None None.

(** [onUpdateTask(taskId, { date: newDate })] *)
Definition handleTaskDrop (taskId newDate : string) (tasks : list Task) : list Task :=
  updateTask taskId (dateUpdate newDate) tasks.

(** [tasks.filter(t => t.date === dateStr)] *)
Definition tasksOn (d : string) (tasks : list Task) : list Task :=
  filter (fun t => String.eqb (date t) d) tasks.

(** ** Focus progress ([FocusMode]: completedToday, totalToday) *)

Definition completedToday (today : string) (tasks : list Task) : nat :=
  List.length (filter (fun t => String.eqb (date t) today && completed t) tasks).

Definition totalToday (today : string) (tasks : list Task) : nat :=
  List.length (filter (fun t => String.eqb (date t) today) tasks).

(** ** Timer controls ([FocusMode]: toggleTimer, resetTimer, skipTimer),
    each followed by the effect run of the re-render. *)

Definition toggleTimer (s : Timer) : Timer :=
  timerEffect (mkTimer (pomodoroTime s) (negb (isRunning s)) (isBreak s) (completedPomodoros s)).

Definition resetTimer (s : Timer) : Timer :=
  timerEffect (mkTimer (if isBreak s then 5 * 60 else 25 * 60) false (isBreak s) (completedPomodoros s)).

Definition skipTimer (s : Timer) : Timer :=
  timerEffect (mkTimer 0 (isRunning s) (isBreak s) (completedPomodoros s)).

(** The full length of the current phase. *)
Definition phaseLength (s : Timer) : Z := if isBreak s then 5 * 60 else 25 * 60.

Definition timer_ok (s : Timer) : Prop := 0 < pomodoroTime s <= phaseLength s.

(** ** Day view ([CalendarDayView]) *)

(** [(a.time || '').localeCompare(b.time || '')] *)
Definition timeCmp (a b : Task) : Z := localeCompare (timeStr (time a)) (timeStr (time b)).

Definition tasksWithTime (dayTasks : list Task) : list Task :=
  js_sort timeCmp (filter (fun t => truthy (time t)) dayTasks).

Definition tasksWithoutTime (dayTasks : list Task) : list Task :=
  filter (fun t => negb (truthy (time t))) dayTasks.

(** ** List view grouping ([TaskListView]: tasksByDate, groupedDates)

    A [Record<string, Task[]>] as an association list in key insertion
    order (date keys are not array indices, so [Object.keys] follows
    insertion order). *)

Definition groupLookup (d : string) (acc : list (string * list Task)) : option (list Task) :=
  option_map snd (find (fun p => String.eqb (fst p) d) acc).

(** [if (!acc[task.date]) acc[task.date] = []; acc[task.date].push(task);] *)
Definition groupStep (acc : list (string * list Task)) (t : Task) : list (string * list Task) :=
  if existsb (fun p => String.eqb (fst p) (date t)) acc then
    map (fun p => if String.eqb (fst p) (date t) then (fst p, snd p ++ [t]) else p) acc
  else acc ++ [(date t, [t])].

Definition tasksByDate (filtered : list Task) : list (string * list Task) :=
  fold_left groupStep filtered [].

(** [Object.keys(tasksByDate).sort((a, b) => a.localeCompare(b))] *)
Definition groupedDates (filtered : list Task) : list string :=
  js_sort localeCompare (map fst (tasksByDate filtered)).

(** ** Saving the task form ([TaskModal]: handleSave) *)

(** [Omit<Task, 'id' | 'createdAt'>] *)
Record TaskInput := mkTaskInput {
  in_title : string;
  in_description : string;
  in_date : string;
  in_time : option string;
  in_priority : Priority;
  in_category : Category;
  in_completed : bool;
  in_recurring : option Recurring;
  in_reminder : bool;
  in_dependencies : option (list string)
}.

(** The form's state; [f_task] is the task being edited, if any. *)
Record TaskForm := mkTaskForm {
  f_title : string;
  f_description : string;
  f_date : string;
  f_time : string;
  f_priority : Priority;
  f_category : Category;
  f_recurring : option Recurring;
  f_reminder : bool;
  f_dependencies : list string;
  f_task : option Task
}.

(** Either the error toast's message or the value passed to [onSave]. *)
Definition handleSave (f : TaskForm) : string + TaskInput :=
  if negb (str_truthy (trim (f_title f))) then inl "Please enter a task title"%string
  else if negb (str_truthy (f_date f)) then inl "Please select a date"%string
  else inr (mkTaskInput (f_title f) (f_description f) (f_date f)
              (if str_truthy (f_time f) then Some (f_time f) else None)
              (f_priority f) (f_category f)
              (match f_task f with Some t => completed t | None => false end)
              (f_recurring f) (f_reminder f)
              (match f_dependencies f with [] => None | ds => Some ds end)).

(** ** Quick-add category detection ([TaskModal]: parseNaturalLanguage) *)

Definition detectCategory (lower : string) (c : Category) : Category :=
  if includes lower "work" || includes lower "meeting" || includes lower "project" then work
  else if includes lower "workout" || includes lower "exercise" || includes lower "health" then health
  else if includes lower "learn" || includes lower "study" || includes lower "course" then learning
  else c.

(** [if (meridiem === 'pm' && hours < 12) hours += 12;
     if (meridiem === 'am' && hours === 12) hours = 0;]
    with [meridiem] the lower-cased third group of the time pattern. *)
Definition meridiemHour (hours : Z) (meridiem : option string) : Z :=
  let h1 := if match meridiem with Some m => String.eqb m "pm" | None => false end
                && (hours <? 12) then hours + 12 else hours in
  if match meridiem with Some m => String.eqb m "am" | None => false end
     && (h1 =? 12) then 0 else h1.

(** ** Adding a goal ([GoalTracker]: handleAddGoal) *)

(** [parseInt(s)] with no radix: leading white space, a sign, a [0x]/[0X]
    prefix selecting base 16, then the longest run of digits.  [None] is
    [NaN].  (JS rounds values beyond 2^53 to a double; the model keeps the
    integer.) *)
Definition digitValue (c : ascii) : option Z :=
  let n := Z.of_nat (nat_of_ascii c) in
  if (48 <=? n) && (n <=? 57) then Some (n - 48)
  else if (97 <=? n) && (n <=? 102) then Some (n - 87)
  else if (65 <=? n) && (n <=? 70) then Some (n - 55)
  else None.

Fixpoint digitRun (radix : Z) (s : string) : list Z :=
  match s with
  | String c s' =>
      match digitValue c with
      | Some v => if v <? radix then v :: digitRun radix s' else []
      | None => []
      end
  | EmptyString => []
  end.

Definition digitsValue (radix : Z) (ds : list Z) : Z :=
  fold_left (fun acc d => acc * radix + d) ds 0.

Definition parseInt (input : string) : option Z :=
  let s := trim_left input in
  let '(sign, s) :=
    match s with
    | String "-" s' => (-1, s')
    | String "+" s' => (1, s')
    | _ => (1, s)
    end in
  let '(radix, s) :=
    match s with
    | String "0" (String "x" s') => (16, s')
    | String "0" (String "X" s') => (16, s')
    | _ => (10, s)
    end in
  match digitRun radix s with
  | [] => None
  | ds => Some (sign * digitsValue radix ds)
  end.

(** [Omit<Goal, 'id'>] as passed to [onAddGoal]; [gi_target] is the
    number [parseInt(target)], [None] standing for [NaN]. *)
Record GoalInput := mkGoalInput {
  gi_title : string;
  gi_target : option Z;
  gi_current : Z;
  gi_month : string;
  gi_category : Category
}.

(** [if (!title.trim() || !target || parseInt(target) <= 0)] rejects;
    [NaN <= 0] is false. *)
Definition handleAddGoal (title target currentMonth : string) (category : Category)
  : string + GoalInput :=
  if negb (str_truthy (trim title)) || negb (str_truthy target)
     || match parseInt target with Some n => n <=? 0 | None => false end
  then inl "Please enter a valid goal title and target"%string
  else inr (mkGoalInput title (parseInt target) 0 currentMonth category).

(** ** Adding and saving tasks ([App.tsx]: addTask; [CalendarMonthView]
    and [CalendarDayView]: handleSaveTask) *)

(** [{ ...task, id, createdAt }] with the generated [id] and the creation
    time passed in. *)
Definition newTask (x : TaskInput) (newId created : string) : Task :=
  mkTask newId (in_title x) (in_description x) (in_date x) (in_time x)
    (in_priority x) (in_category x) (in_completed x) (in_recurring x)
    (Some (in_reminder x)) (in_dependencies x) created.

(** [setTasks([...tasks, newTask])] *)
Definition addTask (x : TaskInput) (newId created : string) (tasks : list Task) : list Task :=
  tasks ++ [newTask x newId created].

(** The form's value as a [Partial<Task>]: every key but [id] and
    [createdAt] is present, [time: undefined] included. *)
Definition inputUpdate (x : TaskInput) : TaskUpdate :=
  mkTaskUpdate None (Some (in_title x)) (Some (in_description x)) (Some (in_date x))
    (Some (in_time x)) (Some (in_priority x)) (Some (in_category x))
    (Some (in_completed x)) (Some (in_recurring x)) (Some (Some (in_reminder x)))
    (Some (in_dependencies x)) None.

(** [if (editingTask) onUpdateTask(editingTask.id, task); else onAddTask(task);] *)
Definition handleSaveTask (editing : option Task) (x : TaskInput) (newId created : string)
  (tasks : list Task) : list Task :=
  match editing with
  | Some e => updateTask (id e) (inputUpdate x) tasks
  | None => addTask x newId created tasks
  end.

(** * Properties *)

(** ** The stable sort *)

Section JsSortFacts.
Context {A : Type}.
Variable cmp : A -> A -> Z.

Lemma insert_perm x l : Permutation (x :: l) (insert cmp x l).
Proof.
  induction l as [|y l IH]; simpl; [reflexivity|].
  destruct (cmp x y <=? 0); [reflexivity|].
  rewrite <- IH. apply perm_swap.
Qed.

Lemma js_sort_perm l : Permutation l (js_sort cmp l).
Proof.
  induction l as [|x l IH]; simpl; [reflexivity|].
  rewrite <- insert_perm. now apply perm_skip.
Qed.

(** Stability: any predicate that only selects elements comparing equal
    to one another sees the same subsequence before and after sorting. *)
Section Stability.
Variable P : A -> bool.
Hypothesis P_tie : forall x y, P x = true -> P y = true -> cmp x y = 0.

Lemma filter_insert_out x l : P x = false -> filter P (insert cmp x l) = filter P l.
Proof.
  intros Hx. induction l as [|y l IH]; simpl.
  - now rewrite Hx.
  - destruct (cmp x y <=? 0); simpl.
    + now rewrite Hx.
    + destruct (P y); now rewrite IH.
Qed.

Lemma filter_insert_in x l : P x = true -> filter P (insert cmp x l) = x :: filter P l.
Proof.
  intros Hx. induction l as [|y l IH]; simpl.
  - now rewrite Hx.
  - destruct (cmp x y <=? 0) eqn:Hc; simpl.
    + now rewrite Hx.
    + destruct (P y) eqn:Hy.
      * pose proof (P_tie x y Hx Hy). apply Z.leb_gt in Hc. lia.
      * exact IH.
Qed.

Lemma js_sort_stable l : filter P (js_sort cmp l) = filter P l.
Proof.
  induction l as [|x l IH]; simpl; [reflexivity|].
  destruct (P x) eqn:Hx.
  - rewrite filter_insert_in by exact Hx. now rewrite IH.
  - rewrite filter_insert_out by exact Hx. exact IH.
Qed.
End Stability.

(** Sortedness, for a comparator that is antisymmetric and whose
    [<= 0] relation is transitive. *)
Section Sortedness.
Hypothesis cmp_antisym : forall x y, cmp y x = - cmp x y.
Hypothesis cmp_le_trans :
  forall x y z, cmp x y <= 0 -> cmp y z <= 0 -> cmp x z <= 0.

Lemma insert_hd y x l :
  HdRel (cmp_le cmp) y l -> cmp_le cmp y x -> HdRel (cmp_le cmp) y (insert cmp x l).
Proof.
  intros Hl Hyx. destruct l as [|z l]; simpl.
  - now constructor.
  - destruct (cmp x z <=? 0); constructor; [exact Hyx|].
    now inversion Hl.
Qed.

Lemma insert_sorted x l : Sorted (cmp_le cmp) l -> Sorted (cmp_le cmp) (insert cmp x l).
Proof.
  induction 1 as [|y l Hs IH Hhd]; simpl.
  - repeat constructor.
  - destruct (cmp x y <=? 0) eqn:Hc.
    + constructor; [now constructor|]. constructor. unfold cmp_le. lia.
    + constructor; [exact IH|]. apply insert_hd; [exact Hhd|].
      unfold cmp_le. rewrite cmp_antisym. lia.
Qed.

Lemma js_sort_sorted l : StronglySorted (cmp_le cmp) (js_sort cmp l).
Proof.
  apply Sorted_StronglySorted.
  - intros x y z. unfold cmp_le. apply cmp_le_trans.
  - induction l as [|x l IH]; simpl; [constructor|].
    now apply insert_sorted.
Qed.
End Sortedness.
End JsSortFacts.

(** ** Task store *)

Lemma map_id_on {A} (f : A -> A) (l : list A) :
  (forall x, In x l -> f x = x) -> map f l = l.
Proof.
  induction l as [|x l IH]; simpl; intros H; [reflexivity|].
  rewrite H by auto. f_equal. apply IH. auto.
Qed.

Lemma eqb_absent i (tasks : list Task) t :
  ~ In i (map id tasks) -> In t tasks -> String.eqb (id t) i = false.
Proof.
  intros Hn Ht. apply String.eqb_neq. intros <-. apply Hn. now apply in_map.
Qed.

(** C9: on an id that no task carries, [updateTask], [deleteTask] and
    [toggleTaskComplete] return the collection unchanged (they are total
    functions: no error is raised). *)
Theorem store_ops_unknown_id_noop (tasks : list Task) (i : string) (u : TaskUpdate) :
  ~ In i (map id tasks) ->
  updateTask i u tasks = tasks /\ deleteTask i tasks = tasks
  /\ toggleTaskComplete i tasks = tasks.
Proof.
  intros Hn. repeat split.
  - apply map_id_on. intros t Ht. now rewrite (eqb_absent i tasks t Hn Ht).
  - unfold deleteTask. apply forallb_filter_id, forallb_forall.
    intros t Ht. now rewrite (eqb_absent i tasks t Hn Ht).
  - apply map_id_on. intros t Ht. now rewrite (eqb_absent i tasks t Hn Ht).
Qed.

(** C10: [toggleTaskComplete] flips the [completed] flag of the tasks with
    the given id and changes nothing else; applied twice it gives back the
    original collection. *)
Theorem toggle_complete_involutive (i : string) (tasks : list Task) :
  toggleTaskComplete i (toggleTaskComplete i tasks) = tasks
  /\ Forall2 (fun t t' =>
       t' = mkTask (id t) (title t) (description t) (date t) (time t) (priority t)
              (category t)
              (if String.eqb (id t) i then negb (completed t) else completed t)
              (recurring t) (reminder t) (dependencies t) (createdAt t))
     tasks (toggleTaskComplete i tasks).
Proof.
  split.
  - unfold toggleTaskComplete. rewrite map_map.
    apply map_id_on. intros t _.
    destruct (String.eqb (id t) i) eqn:E; simpl.
    + rewrite E. destruct t as [? ? ? ? ? ? ? c ? ? ? ?]; simpl. now destruct c.
    + now rewrite E.
  - unfold toggleTaskComplete. induction tasks as [|t ts IH]; simpl; constructor; [|exact IH].
    destruct (String.eqb (id t) i); [reflexivity|]. now destruct t.
Qed.

Lemma filter_length_pos {A} (f : A -> bool) (l : list A) :
  (0 < List.length (filter f l))%nat <-> exists x, In x l /\ f x = true.
Proof.
  split.
  - destruct (filter f l) as [|x r] eqn:E; simpl; [lia|]. intros _.
    assert (In x (filter f l)) as Hx by (rewrite E; now left).
    apply filter_In in Hx. now exists x.
  - intros (x & Hx & Hf). assert (In x (filter f l)) as Hin by now apply filter_In.
    destruct (filter f l); simpl; [destruct Hin|lia].
Qed.

(** ** Month view load *)

(** C1: the load of a day is the first match of the chain over the tasks
    dated that day: [urgent] if one of them is urgent, else [high] if at
    least two are high, else [medium] if there are more than three, else
    [low] if there is at least one, else [none]. *)
Theorem getTaskLoad_chain (tasks : list Task) (d : string) :
  let dayTasks := filter (fun t => String.eqb (date t) d) tasks in
  let highCount := List.length (filter (fun t => Priority_eqb (priority t) high) dayTasks) in
  ((exists t, In t tasks /\ date t = d /\ priority t = urgent) ->
     getTaskLoad tasks d = Lurgent)
  /\ ((~ exists t, In t tasks /\ date t = d /\ priority t = urgent) ->
      (2 <= highCount)%nat -> getTaskLoad tasks d = Lhigh)
  /\ ((~ exists t, In t tasks /\ date t = d /\ priority t = urgent) ->
      (highCount < 2)%nat -> (3 < List.length dayTasks)%nat -> getTaskLoad tasks d = Lmedium)
  /\ ((~ exists t, In t tasks /\ date t = d /\ priority t = urgent) ->
      (highCount < 2)%nat -> (0 < List.length dayTasks <= 3)%nat -> getTaskLoad tasks d = Llow)
  /\ (List.length dayTasks = O -> getTaskLoad tasks d = Lnone).
Proof.
  intros dayTasks highCount.
  assert (Hurg : (exists t, In t tasks /\ date t = d /\ priority t = urgent) <->
                 (0 < List.length (filter (fun t => Priority_eqb (priority t) urgent) dayTasks))%nat).
  { rewrite filter_length_pos. unfold dayTasks. split.
    - intros (t & Hin & Hd & Hp). exists t. split; [|now rewrite Hp].
      apply filter_In. split; [exact Hin|]. now apply String.eqb_eq.
    - intros (t & Hf & Hp). apply filter_In in Hf as [Hin Hd].
      exists t. split; [exact Hin|]. split; [now apply String.eqb_eq|].
      destruct (priority t); easy. }
  unfold getTaskLoad. fold dayTasks. fold highCount.
  repeat split; intros.
  - apply Hurg in H. destruct (Z.gtb_spec (Z.of_nat (List.length
      (filter (fun t => Priority_eqb (priority t) urgent) dayTasks))) 0); [reflexivity|lia].
  - rewrite Hurg in H. destruct (Z.gtb_spec (Z.of_nat (List.length
      (filter (fun t => Priority_eqb (priority t) urgent) dayTasks))) 0); [lia|].
    destruct (Z.gtb_spec (Z.of_nat highCount) 1); [reflexivity|lia].
  - rewrite Hurg in H. destruct (Z.gtb_spec (Z.of_nat (List.length
      (filter (fun t => Priority_eqb (priority t) urgent) dayTasks))) 0); [lia|].
    destruct (Z.gtb_spec (Z.of_nat highCount) 1); [lia|].
    destruct (Z.gtb_spec (Z.of_nat (List.length dayTasks)) 3); [reflexivity|lia].
  - rewrite Hurg in H. destruct (Z.gtb_spec (Z.of_nat (List.length
      (filter (fun t => Priority_eqb (priority t) urgent) dayTasks))) 0); [lia|].
    destruct (Z.gtb_spec (Z.of_nat highCount) 1); [lia|].
    destruct (Z.gtb_spec (Z.of_nat (List.length dayTasks)) 3); [lia|].
    destruct (Z.gtb_spec (Z.of_nat (List.length dayTasks)) 0); [reflexivity|lia].
  - assert (dayTasks = []) as E by (destruct dayTasks; [reflexivity|discriminate]).
    unfold highCount. rewrite E. reflexivity.
Qed.

(** ** Goals *)

Lemma nodup_same_id (goals : list Goal) g h :
  NoDup (map gid goals) -> In g goals -> In h goals -> gid h = gid g -> h = g.
Proof.
  induction goals as [|x goals IH]; simpl; intros Hnd Hg Hh Hid; [destruct Hg|].
  inversion Hnd as [|? ? Hx Hnd']; subst.
  destruct Hg as [<-|Hg], Hh as [<-|Hh]; auto.
  - exfalso. apply Hx. rewrite <- Hid. now apply in_map.
  - exfalso. apply Hx. rewrite Hid. now apply in_map.
Qed.

Lemma findGoal_unique (goals : list Goal) g :
  NoDup (map gid goals) -> In g goals -> findGoal (gid g) goals = Some g.
Proof.
  intros Hnd Hg. unfold findGoal.
  destruct (find (fun h => String.eqb (gid h) (gid g)) goals) as [h|] eqn:E.
  - apply find_some in E as [Hh Hid]. apply String.eqb_eq in Hid.
    f_equal. exact (nodup_same_id goals g h Hnd Hg Hh Hid).
  - exfalso. apply (find_none _ _ E) in Hg. now rewrite String.eqb_refl in Hg.
Qed.

(** With unique ids, updating the goal with the id of [g] only touches
    [g]. *)
Lemma update_only_g (goals : list Goal) g c :
  NoDup (map gid goals) -> In g goals ->
  updateGoalCurrent (gid g) c goals
  = map (fun h => if String.eqb (gid h) (gid g) then setCurrent h (c - current g + current h) else h) goals.
Proof.
  intros Hnd Hg. unfold updateGoalCurrent. apply map_ext_in. intros h Hh.
  destruct (String.eqb (gid h) (gid g)) eqn:E; [|reflexivity].
  apply String.eqb_eq in E. rewrite (nodup_same_id goals g h Hnd Hg Hh E). f_equal. lia.
Qed.

Lemma update_in_bounds (goals : list Goal) g c :
  NoDup (map gid goals) -> In g goals -> 0 <= c <= target g ->
  Forall goal_in_bounds goals -> Forall goal_in_bounds (updateGoalCurrent (gid g) c goals).
Proof.
  intros Hnd Hg Hc Hall. unfold updateGoalCurrent. apply Forall_map.
  rewrite Forall_forall in *. intros h Hh.
  destruct (String.eqb (gid h) (gid g)) eqn:E; [|now apply Hall].
  apply String.eqb_eq in E. rewrite (nodup_same_id goals g h Hnd Hg Hh E).
  exact Hc.
Qed.

(** C7: with unique goal ids, [incrementGoal] and [decrementGoal] keep
    every [current] within [0, target]; at the bound ([current = target]
    for increment, [current = 0] for decrement) they return the goals
    unchanged, and otherwise they add or subtract 1 to the [current] of the
    goal with that id and change nothing else. *)
Theorem goal_clamp (goals : list Goal) (i : string) :
  NoDup (map gid goals) -> Forall goal_in_bounds goals ->
  Forall goal_in_bounds (incrementGoal i goals)
  /\ Forall goal_in_bounds (decrementGoal i goals)
  /\ (forall g, In g goals -> gid g = i ->
        incrementGoal i goals
        = (if current g =? target g then goals
           else map (fun h => if String.eqb (gid h) i then setCurrent h (current h + 1) else h) goals)
        /\ decrementGoal i goals
        = (if current g =? 0 then goals
           else map (fun h => if String.eqb (gid h) i then setCurrent h (current h - 1) else h) goals)).
Proof.
  intros Hnd Hall.
  assert (Hfind : forall g, findGoal i goals = Some g -> In g goals /\ gid g = i).
  { intros g E. apply find_some in E as [Hg Hid]. split; [exact Hg|]. now apply String.eqb_eq. }
  split; [|split].
  - unfold incrementGoal. destruct (findGoal i goals) as [g|] eqn:E; [|exact Hall].
    destruct (Hfind g eq_refl) as [Hg <-]. pose proof (proj1 (Forall_forall _ _) Hall g Hg) as Hb.
    unfold goal_in_bounds in Hb.
    destruct (Z.ltb_spec (current g) (target g)); [|exact Hall].
    apply update_in_bounds; auto. lia.
  - unfold decrementGoal. destruct (findGoal i goals) as [g|] eqn:E; [|exact Hall].
    destruct (Hfind g eq_refl) as [Hg <-]. pose proof (proj1 (Forall_forall _ _) Hall g Hg) as Hb.
    unfold goal_in_bounds in Hb.
    destruct (Z.ltb_spec 0 (current g)); [|exact Hall].
    apply update_in_bounds; auto. lia.
  - intros g Hg <-. pose proof (proj1 (Forall_forall _ _) Hall g Hg) as Hb.
    unfold goal_in_bounds in Hb.
    unfold incrementGoal, decrementGoal. rewrite (findGoal_unique goals g Hnd Hg).
    rewrite !update_only_g by assumption. split.
    + destruct (Z.ltb_spec (current g) (target g)), (Z.eqb_spec (current g) (target g));
        try lia; [|reflexivity].
      apply map_ext. intros h. destruct (String.eqb (gid h) (gid g)); [f_equal; lia|reflexivity].
    + destruct (Z.ltb_spec 0 (current g)), (Z.eqb_spec (current g) 0);
        try lia; [|reflexivity].
      apply map_ext. intros h. destruct (String.eqb (gid h) (gid g)); [f_equal; lia|reflexivity].
Qed.

(** ** Focus queue *)

Lemma StronglySorted_weaken {A} (R R' : A -> A -> Prop) l :
  (forall x y, R x y -> R' x y) -> StronglySorted R l -> StronglySorted R' l.
Proof.
  intros HR. induction 1 as [|x l Hs IH Hf]; constructor; [exact IH|].
  eapply Forall_impl; [|exact Hf]. exact (HR x).
Qed.

(** C6: the focus queue holds exactly today's incomplete tasks, ordered by
    priority (urgent, high, medium, low) with tasks of equal priority in
    input order; with an urgent and a low task dated today the urgent one
    comes first. *)
Theorem focusQueue_spec (today : string) (tasks : list Task) :
  Permutation (filter (isTodayOpen today) tasks) (focusQueue today tasks)
  /\ (forall t, In t (focusQueue today tasks) <->
                In t tasks /\ date t = today /\ completed t = false)
  /\ StronglySorted (fun a b => priorityOrder (priority a) <= priorityOrder (priority b))
       (focusQueue today tasks)
  /\ (forall p, filter (fun t => Priority_eqb (priority t) p) (focusQueue today tasks)
                = filter (fun t => Priority_eqb (priority t) p) (filter (isTodayOpen today) tasks))
  /\ map title (focusQueue "2024-06-03"
       [mkTask "1" "Ship report" "" "2024-06-03" None urgent work false None None None "";
        mkTask "2" "Gym" "" "2024-06-03" None low health false None None None ""])
     = ["Ship report"; "Gym"]%string.
Proof.
  unfold focusQueue. split; [|split; [|split; [|split]]].
  - apply js_sort_perm.
  - intros t. pose proof (js_sort_perm priorityCmp (filter (isTodayOpen today) tasks)) as Hp.
    split; intros H.
    + apply Permutation_sym in Hp. apply (Permutation_in _ Hp) in H. revert H.
      rewrite filter_In. unfold isTodayOpen. rewrite andb_true_iff, String.eqb_eq, negb_true_iff.
      tauto.
    + apply (Permutation_in _ Hp). revert H.
      rewrite filter_In. unfold isTodayOpen. rewrite andb_true_iff, String.eqb_eq, negb_true_iff.
    tauto.
  - eapply StronglySorted_weaken; [|apply js_sort_sorted].
    + intros x y. unfold cmp_le, priorityCmp. lia.
    + intros x y. unfold priorityCmp. lia.
    + intros x y z. unfold priorityCmp. lia.
  - intros p. apply js_sort_stable.
    intros x y Hx Hy. unfold priorityCmp.
    destruct (priority x), (priority y), p; simpl in *; congruence.
  - reflexivity.
Qed.

(** ** List view *)

Definition slt := String_as_OT.lt.

Lemma slt_irrefl a : ~ slt a a.
Proof. intros H. destruct String_as_OT.lt_strorder as [Hi _]. exact (Hi a H). Qed.

Lemma slt_trans a b c : slt a b -> slt b c -> slt a c.
Proof. destruct String_as_OT.lt_strorder as [_ Ht]. exact (Ht a b c). Qed.

Lemma lc_cases a b :
  (localeCompare a b = -1 /\ slt a b) \/ (localeCompare a b = 0 /\ a = b)
  \/ (localeCompare a b = 1 /\ slt b a).
Proof.
  unfold localeCompare, slt. destruct (String_as_OT.compare_spec a b); auto.
Qed.

Lemma lc_refl a : localeCompare a a = 0.
Proof.
  destruct (lc_cases a a) as [[_ H]|[[E _]|[_ H]]]; [|exact E|]; now apply slt_irrefl in H.
Qed.

(** The list comparator over the sort keys (date, has time, time). *)
Definition keyCmp (d1 : string) (b1 : bool) (s1 : string)
                  (d2 : string) (b2 : bool) (s2 : string) : Z :=
  if negb (localeCompare d1 d2 =? 0) then localeCompare d1 d2
  else if b1 && b2 then localeCompare s1 s2
  else if b1 then -1
  else if b2 then 1
  else 0.

Lemma listCmp_keyCmp a b :
  listCmp a b = keyCmp (date a) (truthy (time a)) (timeStr (time a))
                       (date b) (truthy (time b)) (timeStr (time b)).
Proof. reflexivity. Qed.

Ltac lc_destr a b :=
  let E := fresh "E" in let L := fresh "L" in
  destruct (lc_cases a b) as [[E L]|[[E L]|[E L]]]; rewrite ?E in *;
  try (subst a || subst b).

Ltac slt_contra :=
  exfalso;
  match goal with
  | H : slt ?a ?a |- _ => exact (slt_irrefl a H)
  | H1 : slt ?a ?b, H2 : slt ?b ?a |- _ => exact (slt_irrefl a (slt_trans _ _ _ H1 H2))
  | H1 : slt ?a ?b, H2 : slt ?b ?c, H3 : slt ?c ?a |- _ =>
      exact (slt_irrefl a (slt_trans _ _ _ (slt_trans _ _ _ H1 H2) H3))
  end.

Lemma lc_antisym a b : localeCompare b a = - localeCompare a b.
Proof.
  lc_destr a b; rewrite ?lc_refl; [|reflexivity|];
  lc_destr b a; try reflexivity; slt_contra.
Qed.

Lemma keyCmp_antisym d1 b1 s1 d2 b2 s2 :
  keyCmp d2 b2 s2 d1 b1 s1 = - keyCmp d1 b1 s1 d2 b2 s2.
Proof.
  unfold keyCmp. rewrite (lc_antisym d1 d2), (lc_antisym s1 s2).
  destruct (localeCompare d1 d2 =? 0) eqn:E; simpl.
  - apply Z.eqb_eq in E. rewrite E. simpl.
    destruct b1, b2; simpl; lia.
  - apply Z.eqb_neq in E. destruct (Z.eqb_spec (- localeCompare d1 d2) 0); simpl; lia.
Qed.

Ltac lc3 a b c :=
  destruct (lc_cases a b) as [[? ?]|[[? ?]|[? ?]]];
  destruct (lc_cases b c) as [[? ?]|[[? ?]|[? ?]]];
  destruct (lc_cases a c) as [[? ?]|[[? ?]|[? ?]]];
  repeat match goal with H : localeCompare _ _ = _ |- _ => rewrite H in *; clear H end;
  simpl in *; try lia; subst; try slt_contra.

Lemma keyCmp_le_trans d1 b1 s1 d2 b2 s2 d3 b3 s3 :
  keyCmp d1 b1 s1 d2 b2 s2 <= 0 -> keyCmp d2 b2 s2 d3 b3 s3 <= 0 ->
  keyCmp d1 b1 s1 d3 b3 s3 <= 0.
Proof.
  unfold keyCmp. intros H12 H23.
  lc3 d1 d2 d3.
  destruct b1, b2, b3; simpl in *; try lia.
  lc3 s1 s2 s3.
Qed.

Lemma listCmp_le_order a b : listCmp a b <= 0 -> list_order a b.
Proof.
  rewrite listCmp_keyCmp. unfold keyCmp, list_order. intros H.
  destruct (lc_cases (date a) (date b)) as [[E L]|[[E L]|[E L]]]; rewrite E in H; simpl in H.
  - now left.
  - right. split; [exact L|].
    destruct (truthy (time a)), (truthy (time b)); simpl in H; try lia; auto.
    left. repeat split. intros L'.
    destruct (lc_cases (timeStr (time a)) (timeStr (time b))) as [[E' L2]|[[E' L2]|[E' L2]]];
      rewrite E' in H; try lia.
    + exact (slt_irrefl _ (slt_trans _ _ _ L' L2)).
    + rewrite L2 in L'. exact (slt_irrefl _ L').
  - lia.
Qed.

(** C2: the list view keeps exactly the filtered tasks and orders them by
    date; on one date, timed tasks come by time and before the untimed
    ones, and untimed tasks keep their input order.  For
    A(2024-06-01, 09:00), B(2024-06-01, no time), C(2024-06-01, 08:00) the
    order is C, A, B. *)
Theorem listView_order (startDate endDate searchQuery : string) (tasks : list Task) :
  Permutation (listFilter startDate endDate searchQuery tasks)
              (listView startDate endDate searchQuery tasks)
  /\ StronglySorted list_order (listView startDate endDate searchQuery tasks)
  /\ (forall d, filter (fun t => String.eqb (date t) d && negb (truthy (time t)))
                  (listView startDate endDate searchQuery tasks)
              = filter (fun t => String.eqb (date t) d && negb (truthy (time t)))
                  (listFilter startDate endDate searchQuery tasks))
  /\ map id (listView "" "" ""
       [mkTask "A" "A" "" "2024-06-01" (Some "09:00"%string) medium work false None None None "";
        mkTask "B" "B" "" "2024-06-01" None medium work false None None None "";
        mkTask "C" "C" "" "2024-06-01" (Some "08:00"%string) medium work false None None None ""])
     = ["C"; "A"; "B"]%string.
Proof.
  unfold listView. split; [|split; [|split]].
  - apply js_sort_perm.
  - eapply StronglySorted_weaken; [|apply js_sort_sorted].
    + intros x y. apply listCmp_le_order.
    + intros x y. rewrite !listCmp_keyCmp. apply keyCmp_antisym.
    + intros x y z. rewrite !listCmp_keyCmp. apply keyCmp_le_trans.
  - intros d. apply js_sort_stable.
    intros x y Hx Hy.
    apply andb_true_iff in Hx as [Hx Tx], Hy as [Hy Ty].
    apply String.eqb_eq in Hx, Hy. apply negb_true_iff in Tx, Ty.
    unfold listCmp. rewrite Hx, Hy, lc_refl, Tx, Ty. reflexivity.
  - reflexivity.
Qed.

(** ** Focus timer *)

Lemma ticks_add a b s : ticks (a + b) s = ticks b (ticks a s).
Proof. revert s. induction a as [|a IH]; intros s; simpl; [reflexivity|apply IH]. Qed.

Lemma tick_running n brk c :
  1 < n -> tick (mkTimer n true brk c) = mkTimer (n - 1) true brk c.
Proof.
  intros Hn. unfold tick, timerEffect. simpl.
  destruct (Z.gtb_spec n 0); [|lia]. simpl.
  destruct (Z.gtb_spec (n - 1) 0); [reflexivity|lia].
Qed.

Lemma ticks_running k n brk c :
  (Z.of_nat k < n) -> ticks k (mkTimer n true brk c) = mkTimer (n - Z.of_nat k) true brk c.
Proof.
  revert n. induction k as [|k IH]; intros n Hk; simpl.
  - f_equal. lia.
  - rewrite tick_running by lia. rewrite IH by lia. f_equal. lia.
Qed.

Lemma ticks_stopped k s : isRunning s = false -> ticks k s = s.
Proof.
  intros Hs. induction k as [|k IH]; simpl; [reflexivity|].
  replace (tick s) with s by (unfold tick; now rewrite Hs). exact IH.
Qed.

(** C5: from Focus with 25:00 left and running, each tick takes one second
    off; the tick that reaches 0 stops the timer, adds one completed
    pomodoro and switches to Break with 5:00 left; nothing changes after
    that while the timer is not resumed.  So after 1500 ticks the state is
    Break(5:00, not running) with the counter one higher. *)
Theorem focus_timer_cycle (c : Z) :
  (forall k, (k < 1500)%nat ->
     ticks k (mkTimer (25 * 60) true false c) = mkTimer (25 * 60 - Z.of_nat k) true false c)
  /\ ticks 1500 (mkTimer (25 * 60) true false c) = mkTimer (5 * 60) false true (c + 1)
  /\ (forall k, (1500 <= k)%nat ->
        ticks k (mkTimer (25 * 60) true false c) = mkTimer (5 * 60) false true (c + 1)).
Proof.
  assert (H1500 : ticks 1500 (mkTimer (25 * 60) true false c) = mkTimer (5 * 60) false true (c + 1)).
  { change 1500%nat with (1499 + 1)%nat. rewrite ticks_add, ticks_running by lia.
    reflexivity. }
  split; [|split; [exact H1500|]].
  - intros k Hk. apply ticks_running. lia.
  - intros k Hk. replace k with (1500 + (k - 1500))%nat by lia.
    rewrite ticks_add, H1500. now apply ticks_stopped.
Qed.

(** ** Streak *)

Lemma streakFuel_sound fuel z tasks checkDate n :
  streakFuel fuel z tasks checkDate = Some n -> streakLoop z tasks checkDate n.
Proof.
  revert checkDate n. induction fuel as [|fuel IH]; intros checkDate n H; simpl in H; [discriminate|].
  destruct (dayHasCompleted tasks (dateKey checkDate)) eqn:E.
  - destruct (streakFuel fuel z tasks (previousDay z checkDate)) as [m|] eqn:Em; simpl in H; [|discriminate].
    injection H as <-. apply streak_step; [exact E|]. now apply IH.
  - injection H as <-. now apply streak_stop.
Qed.

Lemma streakLoop_det z tasks checkDate n m :
  streakLoop z tasks checkDate n -> streakLoop z tasks checkDate m -> n = m.
Proof.
  intros Hn. revert m. induction Hn as [c H|c k H Hl IH]; intros m Hm;
    inversion Hm as [c' H'|c' m' H' Hl']; subst; try congruence.
  f_equal. now apply IH.
Qed.

(** In a zone without an offset change, [setDate(getDate() - 1)] moves the
    time value back by exactly one day. *)
Lemma previousDay_fixed z t : offBefore z = offAfter z -> previousDay z t = t - msPerDay.
Proof.
  intros Hz. unfold previousDay, localTime, utcOf, offsetAt. rewrite Hz.
  repeat match goal with |- context [if ?c then _ else _] => destruct c end; lia.
Qed.

(** C4: across the start of daylight saving time the walk visits one date
    key twice.  In New York, at 2024-03-10T23:30Z, with completed tasks
    dated 2024-03-10 and 2024-03-09 only, [setDate(getDate() - 1)] moves
    back 23 hours of UTC time, to 2024-03-10T00:30Z, still keyed
    "2024-03-10": the code's streak is 3, while counting consecutive
    calendar days from today's key gives 2. *)
Theorem streak_dst_repeats_day :
  let tasks := [mkTask "1" "a" "" "2024-03-10" None low work true None None None "";
                mkTask "2" "b" "" "2024-03-09" None low work true None None None "";
                mkTask "3" "c" "" "2024-03-08" None low work false None None None ""] in
  let now := 1710113400000 in
  dateKey now = "2024-03-10"%string
  /\ dateKey (previousDay newYork2024 now) = "2024-03-10"%string
  /\ (forall n, streakLoop newYork2024 tasks now n <-> n = 3%nat)
  /\ specStreak 10 tasks (now / msPerDay) = 2%nat.
Proof.
  intros tasks now.
  assert (H3 : streakLoop newYork2024 tasks now 3)
    by (apply (streakFuel_sound 10); vm_compute; reflexivity).
  split; [vm_compute; reflexivity|]. split; [vm_compute; reflexivity|].
  split; [|vm_compute; reflexivity].
  intros n. split.
  - intros Hn. exact (streakLoop_det _ _ _ _ _ Hn H3).
  - intros ->. exact H3.
Qed.

(** ** Dates and the month grid *)

Lemma civil_day_bounds z : 1 <= snd (civil_from_days z) <= 31.
Proof.
  unfold civil_from_days. cbv zeta.
  set (doe := z + 719468 - (z + 719468) / 146097 * 146097).
  set (yoe := (doe - doe / 1460 + doe / 36524 - doe / 146096) / 365).
  set (doy := doe - (365 * yoe + yoe / 4 - yoe / 100)).
  pose proof (Z.div_mod (5 * doy + 2) 153 ltac:(lia)) as H1.
  pose proof (Z.mod_pos_bound (5 * doy + 2) 153 ltac:(lia)) as H2.
  set (mp := (5 * doy + 2) / 153) in *.
  pose proof (Z.div_mod (153 * mp + 2) 5 ltac:(lia)) as H3.
  pose proof (Z.mod_pos_bound (153 * mp + 2) 5 ltac:(lia)) as H4.
  set (q := (153 * mp + 2) / 5) in *.
  destruct (mp <? 10), (_ <=? 2); simpl; lia.
Qed.

Lemma getDate_bounds tz t : 1 <= getDate tz t <= 31.
Proof.
  unfold getDate. pose proof (civil_day_bounds (localDay tz t)).
  destruct (civil_from_days (localDay tz t)) as [[y m] d]. exact H.
Qed.

Lemma getDay_bounds tz t : 0 <= getDay tz t <= 6.
Proof. unfold getDay. pose proof (Z.mod_pos_bound (localDay tz t + 4) 7). lia. Qed.

(** C3: the date key is the UTC day of the time value, not its local day:
    in a zone two hours east of UTC, the month cell built as
    [new Date(2024, 5, 3)] (local midnight of June 3) gets the key
    "2024-06-02", while its local day is 2024-06-03. *)
Theorem dateKey_is_utc_day :
  getDate 120 (newDate 120 2024 5 3) = 3
  /\ localDateKey 120 (newDate 120 2024 5 3) = "2024-06-03"%string
  /\ dateKey (newDate 120 2024 5 3) = "2024-06-02"%string.
Proof. vm_compute. repeat split. Qed.

(** ** Witnesses *)

Lemma store_ops_unknown_id_noop_witness :
  ~ In "9"%string (map id [mkTask "1" "Gym" "" "2024-06-03" None low health false None None None ""])
  /\ (let tasks := [mkTask "1" "Gym" "" "2024-06-03" None low health false None None None ""] in
      let u := mkTaskUpdate None (Some "Run"%string) None None None None None None None None None None in
      updateTask "9" u tasks = tasks /\ deleteTask "9" tasks = tasks
      /\ toggleTaskComplete "9" tasks = tasks).
Proof.
  split.
  - simpl. intros [H|[]]. discriminate.
  - apply store_ops_unknown_id_noop. simpl. intros [H|[]]. discriminate.
Defined.

Lemma goal_clamp_witness :
  let goals := [mkGoal "a" "Read" 3 3 "2024-06" learning; mkGoal "b" "Run" 2 0 "2024-06" health] in
  NoDup (map gid goals) /\ Forall goal_in_bounds goals
  /\ (Forall goal_in_bounds (incrementGoal "a" goals)
      /\ Forall goal_in_bounds (decrementGoal "a" goals)
      /\ (forall g, In g goals -> gid g = "a"%string ->
            incrementGoal "a" goals
            = (if current g =? target g then goals
               else map (fun h => if String.eqb (gid h) "a" then setCurrent h (current h + 1) else h) goals)
            /\ decrementGoal "a" goals
            = (if current g =? 0 then goals
               else map (fun h => if String.eqb (gid h) "a" then setCurrent h (current h - 1) else h) goals))).
Proof.
  intros goals.
  assert (Hnd : NoDup (map gid goals)).
  { simpl. constructor; [simpl; intros [H|[]]; discriminate|].
    constructor; [simpl; intros []|constructor]. }
  assert (Hb : Forall goal_in_bounds goals).
  { repeat constructor; unfold goal_in_bounds; simpl; lia. }
  split; [exact Hnd|]. split; [exact Hb|].
  exact (goal_clamp goals "a" Hnd Hb).
Defined.

(** * Further properties of the code *)

(** ** Task store *)

(** An update that does not set [id] keeps the ids of the collection, in
    order, and leaves the tasks with other ids as they were. *)
Theorem updateTask_keeps_ids (i : string) (u : TaskUpdate) (tasks : list Task) :
  u_id u = None ->
  map id (updateTask i u tasks) = map id tasks
  /\ (forall t, In t tasks -> id t <> i -> In t (updateTask i u tasks)).
Proof.
  intros Hu. split.
  - unfold updateTask. rewrite map_map. apply map_ext. intros t.
    destruct (String.eqb (id t) i); [|reflexivity]. unfold spread. simpl. now rewrite Hu.
  - intros t Ht Hne. unfold updateTask. apply in_map_iff. exists t. split; [|exact Ht].
    apply String.eqb_neq in Hne. now rewrite Hne.
Qed.

(** After a drop on [newDate], the dropped task, with its date changed
    and nothing else, is among the tasks of [newDate], and no task with
    that id is left on any other date. *)
Theorem handleTaskDrop_moves (t : Task) (newDate : string) (tasks : list Task) :
  In t tasks ->
  In (spread t (dateUpdate newDate)) (tasksOn newDate (handleTaskDrop (id t) newDate tasks))
  /\ (forall d u, d <> newDate -> In u (tasksOn d (handleTaskDrop (id t) newDate tasks)) -> id u <> id t).
Proof.
  intros Ht. unfold tasksOn, handleTaskDrop, updateTask. split.
  - apply filter_In. split.
    + apply in_map_iff. exists t. now rewrite String.eqb_refl.
    + simpl. apply String.eqb_refl.
  - intros d u Hd Hu Hid. apply filter_In in Hu as [Hu Hdu].
    apply in_map_iff in Hu as (t0 & Heq & Ht0).
    destruct (String.eqb (id t0) (id t)) eqn:E; subst u.
    + simpl in Hdu. apply String.eqb_eq in Hdu. congruence.
    + rewrite Hid in E. now rewrite String.eqb_refl in E.
Qed.

(** ** Focus progress *)

Lemma count_split {A} (f g : A -> bool) (l : list A) :
  (List.length (filter (fun x => f x && g x) l) + List.length (filter (fun x => f x && negb (g x)) l)
   = List.length (filter f l))%nat.
Proof.
  induction l as [|x l IH]; simpl; [reflexivity|].
  destruct (f x), (g x); simpl; lia.
Qed.

(** Today's completed tasks and the tasks of the focus queue add up to
    the total of today's tasks. *)
Theorem focus_progress_counts (today : string) (tasks : list Task) :
  (completedToday today tasks + List.length (focusQueue today tasks) = totalToday today tasks)%nat.
Proof.
  unfold completedToday, totalToday, focusQueue.
  rewrite <- (Permutation_length (js_sort_perm priorityCmp _)).
  unfold isTodayOpen. apply count_split.
Qed.

(** ** Goals *)

Lemma update_twice (goals : list Goal) i c c' :
  updateGoalCurrent i c (updateGoalCurrent i c' goals) = updateGoalCurrent i c goals.
Proof.
  unfold updateGoalCurrent. rewrite map_map. apply map_ext. intros g.
  destruct (String.eqb (gid g) i) eqn:E; simpl; [now rewrite E|now rewrite E].
Qed.

Lemma update_same (goals : list Goal) g :
  NoDup (map gid goals) -> In g goals -> updateGoalCurrent (gid g) (current g) goals = goals.
Proof.
  intros Hnd Hg. unfold updateGoalCurrent. apply map_id_on. intros h Hh.
  destruct (String.eqb (gid h) (gid g)) eqn:E; [|reflexivity].
  apply String.eqb_eq in E. rewrite (nodup_same_id goals g h Hnd Hg Hh E).
  now destruct g.
Qed.

Lemma update_gids (goals : list Goal) i c :
  map gid (updateGoalCurrent i c goals) = map gid goals.
Proof.
  unfold updateGoalCurrent. rewrite map_map. apply map_ext. intros g.
  now destruct (String.eqb (gid g) i).
Qed.

Lemma update_in (goals : list Goal) g c :
  In g goals -> In (setCurrent g c) (updateGoalCurrent (gid g) c goals).
Proof.
  intros Hg. apply in_map_iff. exists g. now rewrite String.eqb_refl.
Qed.

(** With unique ids, a decrement undoes an increment that was not at the
    target, and an increment undoes a decrement that was not at 0. *)
Theorem goal_increment_decrement (goals : list Goal) (g : Goal) :
  NoDup (map gid goals) -> In g goals -> goal_in_bounds g ->
  (current g < target g -> decrementGoal (gid g) (incrementGoal (gid g) goals) = goals)
  /\ (0 < current g -> incrementGoal (gid g) (decrementGoal (gid g) goals) = goals).
Proof.
  intros Hnd Hg Hb. unfold goal_in_bounds in Hb. split; intros Hc.
  - unfold incrementGoal. rewrite (findGoal_unique goals g Hnd Hg).
    destruct (Z.ltb_spec (current g) (target g)); [|lia].
    unfold decrementGoal.
    assert (Hnd' : NoDup (map gid (updateGoalCurrent (gid g) (current g + 1) goals)))
      by now rewrite update_gids.
    pose proof (update_in goals g (current g + 1) Hg) as Hin.
    pose proof (findGoal_unique _ _ Hnd' Hin) as Hf. simpl in Hf. rewrite Hf. simpl.
    destruct (Z.ltb_spec 0 (current g + 1)); [|lia].
    replace (current g + 1 - 1) with (current g) by lia.
    rewrite update_twice. now apply update_same.
  - unfold decrementGoal. rewrite (findGoal_unique goals g Hnd Hg).
    destruct (Z.ltb_spec 0 (current g)); [|lia].
    unfold incrementGoal.
    assert (Hnd' : NoDup (map gid (updateGoalCurrent (gid g) (current g - 1) goals)))
      by now rewrite update_gids.
    pose proof (update_in goals g (current g - 1) Hg) as Hin.
    pose proof (findGoal_unique _ _ Hnd' Hin) as Hf. simpl in Hf. rewrite Hf. simpl.
    destruct (Z.ltb_spec (current g - 1) (target g)); [|lia].
    replace (current g - 1 + 1) with (current g) by lia.
    rewrite update_twice. now apply update_same.
Qed.

(** ** Timer controls *)

(** Skipping ends the current phase at once, running or not: a Focus phase
    goes to a stopped 5:00 Break and counts one pomodoro; a Break goes to a
    stopped 25:00 Focus and counts nothing. *)
Theorem skipTimer_phase (n : Z) (running : bool) (c : Z) :
  skipTimer (mkTimer n running false c) = mkTimer (5 * 60) false true (c + 1)
  /\ skipTimer (mkTimer n running true c) = mkTimer (25 * 60) false false c.
Proof.
  unfold skipTimer, timerEffect. simpl. rewrite andb_false_r. split; reflexivity.
Qed.

(** The remaining time stays between 1 second and the full length of the
    current phase under ticks, start/pause, reset and skip. *)
Theorem timer_ok_preserved (s : Timer) :
  timer_ok s ->
  timer_ok (tick s) /\ timer_ok (toggleTimer s) /\ timer_ok (resetTimer s)
  /\ timer_ok (skipTimer s).
Proof.
  destruct s as [n r b c]. unfold timer_ok, phaseLength. simpl. intros Hn.
  repeat split.
  - unfold tick, timerEffect. simpl.
    destruct r; simpl; [|lia].
    destruct (Z.gtb_spec n 0); simpl; [|lia].
    destruct (Z.gtb_spec (n - 1) 0); simpl; [lia|].
    destruct (Z.eqb_spec (n - 1) 0); [|lia]. destruct b; simpl; lia.
  - unfold tick, timerEffect. simpl.
    destruct r; simpl; [|lia].
    destruct (Z.gtb_spec n 0); simpl; [|lia].
    destruct (Z.gtb_spec (n - 1) 0); simpl; [lia|].
    destruct (Z.eqb_spec (n - 1) 0); [|lia]. destruct b; simpl; lia.
  - unfold toggleTimer, timerEffect. simpl.
    destruct (Z.gtb_spec n 0); [|lia]. rewrite andb_true_r.
    destruct (negb r); simpl; [lia|].
    destruct (Z.eqb_spec n 0); [lia|]. simpl. lia.
  - unfold toggleTimer, timerEffect. simpl.
    destruct (Z.gtb_spec n 0); [|lia]. rewrite andb_true_r.
    destruct (negb r); simpl; [lia|].
    destruct (Z.eqb_spec n 0); [lia|]. simpl. lia.
  - unfold resetTimer, timerEffect. destruct b; simpl; lia.
  - unfold resetTimer, timerEffect. destruct b; simpl; lia.
  - unfold skipTimer, timerEffect. simpl. rewrite andb_false_r. destruct b; simpl; lia.
  - unfold skipTimer, timerEffect. simpl. rewrite andb_false_r. destruct b; simpl; lia.
Qed.

(** Pause followed by start (or the reverse) gives back the same timer:
    the remaining time is never reset by toggling. *)
Theorem toggleTimer_twice (s : Timer) :
  timer_ok s -> toggleTimer (toggleTimer s) = s.
Proof.
  destruct s as [n r b c]. unfold timer_ok, phaseLength. simpl. intros Hn.
  unfold toggleTimer, timerEffect. simpl.
  destruct (Z.gtb_spec n 0); [|lia]. destruct (Z.eqb_spec n 0); [lia|].
  destruct r; simpl; rewrite ?andb_true_r; simpl;
  destruct (Z.gtb_spec n 0); try lia; destruct (Z.eqb_spec n 0); try lia; reflexivity.
Qed.

(** A whole cycle: 1500 running ticks of Focus, a start, and 300 running
    ticks of Break lead back to a stopped 25:00 Focus with one more
    completed pomodoro. *)
Theorem pomodoro_full_cycle (c : Z) :
  ticks 300 (toggleTimer (ticks 1500 (mkTimer (25 * 60) true false c)))
  = mkTimer (25 * 60) false false (c + 1).
Proof.
  assert (H1 : ticks 1500 (mkTimer (25 * 60) true false c) = mkTimer (5 * 60) false true (c + 1)).
  { change 1500%nat with (1499 + 1)%nat. rewrite ticks_add, ticks_running by lia. reflexivity. }
  rewrite H1.
  assert (H2 : toggleTimer (mkTimer (5 * 60) false true (c + 1)) = mkTimer (5 * 60) true true (c + 1))
    by reflexivity.
  rewrite H2. change 300%nat with (299 + 1)%nat. rewrite ticks_add, ticks_running by lia.
  reflexivity.
Qed.

(** ** Streak *)

Lemma dayHasCompleted_mono (tasks tasks' : list Task) k :
  (forall t, In t tasks -> completed t = true -> In t tasks') ->
  dayHasCompleted tasks k = true -> dayHasCompleted tasks' k = true.
Proof.
  intros Hsub H. unfold dayHasCompleted in *.
  apply existsb_exists in H as (t & Ht & Hc). apply existsb_exists.
  exists t. split; [|exact Hc]. apply Hsub; [exact Ht|].
  now apply andb_true_iff in Hc as [_ Hc].
Qed.

Lemma days_back_S z now i :
  offBefore z = offAfter z ->
  now - Z.of_nat (S i) * msPerDay = previousDay z now - Z.of_nat i * msPerDay.
Proof. intros Hz. rewrite (previousDay_fixed z now Hz). lia. Qed.

(** In a zone whose offset does not change, the streak walk ends with [n]
    exactly when the [n] UTC days now, one day back, ..., [n - 1] days back
    each have a completed task and the day [n] days back has none. *)
Theorem streak_fixed_zone_days (z : Zone) :
  offBefore z = offAfter z ->
  forall (tasks : list Task) (now : Z) (n : nat),
     streakLoop z tasks now n <->
     (forall i, (i < n)%nat ->
        dayHasCompleted tasks (dateKey (now - Z.of_nat i * msPerDay)) = true)
     /\ dayHasCompleted tasks (dateKey (now - Z.of_nat n * msPerDay)) = false.
Proof.
  intros Hz tasks now n. split.
  - induction 1 as [c H|c m H Hl IH].
    + split; [intros i Hi; lia|]. now rewrite Z.mul_0_l, Z.sub_0_r.
    + destruct IH as [IHall IHend]. split.
      * intros [|i] Hi.
        -- now rewrite Z.mul_0_l, Z.sub_0_r.
        -- rewrite (days_back_S z c i Hz). apply IHall. lia.
      * rewrite (days_back_S z c m Hz). exact IHend.
  - revert now. induction n as [|n IH]; intros now [Hall Hend].
    + apply streak_stop. now rewrite Z.mul_0_l, Z.sub_0_r in Hend.
    + apply streak_step.
      * specialize (Hall O ltac:(lia)). now rewrite Z.mul_0_l, Z.sub_0_r in Hall.
      * apply IH. split.
        -- intros i Hi. rewrite <- (days_back_S z now i Hz). apply Hall. lia.
        -- rewrite <- (days_back_S z now n Hz). exact Hend.
Qed.

(** Adding tasks, or completing more of them, never shortens the streak:
    if every completed task of [tasks] is also in [tasks'], the streak of
    [tasks] is at most that of [tasks']. *)
Theorem streak_monotone (z : Zone) (tasks tasks' : list Task) (now : Z) (n m : nat) :
  (forall t, In t tasks -> completed t = true -> In t tasks') ->
  streakLoop z tasks now n -> streakLoop z tasks' now m -> (n <= m)%nat.
Proof.
  intros Hsub Hn. revert m. induction Hn as [c H|c k H Hl IH]; intros m Hm; [lia|].
  inversion Hm as [c' H'|c' m' H' Hl']; subst.
  - pose proof (dayHasCompleted_mono tasks tasks' _ Hsub H). congruence.
  - specialize (IH m' Hl'). lia.
Qed.

(** ** Sorting after filtering *)

Section SortFilter.
Context {A : Type}.
Variable cmp : A -> A -> Z.
Hypothesis cmp_antisym : forall x y, cmp y x = - cmp x y.
Hypothesis cmp_le_trans : forall x y z, cmp x y <= 0 -> cmp y z <= 0 -> cmp x z <= 0.
Variable P : A -> bool.

Lemma insert_front x m : (forall z, In z m -> cmp x z <= 0) -> insert cmp x m = x :: m.
Proof.
  intros H. destruct m as [|z m]; simpl; [reflexivity|].
  destruct (Z.leb_spec (cmp x z) 0); [reflexivity|]. specialize (H z (or_introl eq_refl)). lia.
Qed.

Lemma filter_insert_sorted x l :
  StronglySorted (cmp_le cmp) l -> P x = true ->
  filter P (insert cmp x l) = insert cmp x (filter P l).
Proof.
  intros Hs Hx. induction Hs as [|y l Hs IH Hf]; simpl.
  - now rewrite Hx.
  - destruct (Z.leb_spec (cmp x y) 0).
    + simpl. rewrite Hx. destruct (P y) eqn:Hy; simpl.
      * destruct (Z.leb_spec (cmp x y) 0); [reflexivity|lia].
      * symmetry. apply insert_front. intros z Hz.
        apply filter_In in Hz as [Hz _].
        rewrite Forall_forall in Hf. apply (cmp_le_trans x y z); [lia|]. now apply Hf.
    + simpl. destruct (P y) eqn:Hy; simpl.
      * rewrite IH. destruct (Z.leb_spec (cmp x y) 0); [lia|reflexivity].
      * exact IH.
Qed.

Lemma js_sort_filter l : filter P (js_sort cmp l) = js_sort cmp (filter P l).
Proof.
  induction l as [|x l IH]; simpl; [reflexivity|].
  pose proof (js_sort_sorted cmp cmp_antisym cmp_le_trans l) as Hs.
  destruct (P x) eqn:Hx.
  - simpl. rewrite <- IH. fold (js_sort cmp l). apply filter_insert_sorted; assumption.
  - rewrite <- IH. apply (filter_insert_out cmp P). exact Hx.
Qed.
End SortFilter.

(** ** Focus queue and completion *)

Lemma nodup_map_filter {A B} (g : A -> B) (f : A -> bool) (l : list A) :
  NoDup (map g l) -> NoDup (map g (filter f l)).
Proof.
  induction l as [|x l IH]; simpl; intros H; [constructor|].
  inversion H as [|? ? Hx Hl]; subst.
  destruct (f x); simpl; [|now apply IH].
  constructor; [|now apply IH].
  intros Hin. apply Hx. apply in_map_iff in Hin as (y & Hy & Hin).
  apply filter_In in Hin as [Hin _]. rewrite <- Hy. now apply in_map.
Qed.

Lemma filter_open_toggle (today : string) (h : Task) (tasks : list Task) :
  (forall t, In t tasks -> id t = id h -> completed t = false) ->
  filter (isTodayOpen today) (toggleTaskComplete (id h) tasks)
  = filter (fun t => negb (String.eqb (id t) (id h))) (filter (isTodayOpen today) tasks).
Proof.
  induction tasks as [|t ts IH]; intros H; [reflexivity|].
  assert (IH' : filter (isTodayOpen today) (toggleTaskComplete (id h) ts)
    = filter (fun t => negb (String.eqb (id t) (id h))) (filter (isTodayOpen today) ts))
    by (apply IH; intros u Hu Hid; apply H; [now right|exact Hid]).
  unfold toggleTaskComplete in *. cbn [map filter]. rewrite IH'.
  destruct (String.eqb (id t) (id h)) eqn:E.
  - assert (completed t = false) as Hc by (apply H; [now left|now apply String.eqb_eq]).
    assert (isTodayOpen today (flipCompleted t) = false) as Hf
      by (unfold isTodayOpen; simpl; rewrite Hc; apply andb_false_r).
    rewrite Hf. destruct (isTodayOpen today t); simpl; rewrite ?E; reflexivity.
  - destruct (isTodayOpen today t); simpl; rewrite ?E; reflexivity.
Qed.

(** With unique task ids, completing the "Next Up" task (the head of the
    focus queue) leaves exactly the rest of the queue, in the same order. *)
Theorem focusQueue_complete_next (today : string) (tasks : list Task) (h : Task) (rest : list Task) :
  NoDup (map id tasks) -> focusQueue today tasks = h :: rest ->
  focusQueue today (toggleTaskComplete (id h) tasks) = rest.
Proof.
  intros Hnd Hq.
  pose proof (js_sort_perm priorityCmp (filter (isTodayOpen today) tasks)) as Hp.
  fold (focusQueue today tasks) in Hp. rewrite Hq in Hp.
  assert (Hnd' : NoDup (map id (h :: rest))).
  { apply (Permutation_NoDup (Permutation_map id Hp)). now apply nodup_map_filter. }
  assert (Hh : In h (filter (isTodayOpen today) tasks))
    by (apply (Permutation_in _ (Permutation_sym Hp)); now left).
  apply filter_In in Hh as [Hh Ho].
  assert (Hsame : forall t, In t tasks -> id t = id h -> t = h).
  { intros t Ht Hid. clear -Hnd Ht Hh Hid. induction tasks as [|x l IH]; [destruct Ht|].
    inversion Hnd as [|? ? Hx Hl]; subst.
    destruct Ht as [<-|Ht], Hh as [<-|Hh]; auto.
    - exfalso. apply Hx. rewrite Hid. now apply in_map.
    - exfalso. apply Hx. rewrite <- Hid. now apply in_map. }
  unfold focusQueue. rewrite filter_open_toggle.
  - rewrite <- js_sort_filter.
    + fold (focusQueue today tasks). rewrite Hq. simpl. rewrite String.eqb_refl. simpl.
      apply forallb_filter_id, forallb_forall. intros t Ht.
      inversion Hnd' as [|? ? Hx _]; subst.
      apply negb_true_iff, String.eqb_neq. intros Hid. apply Hx. rewrite <- Hid. now apply in_map.
    + intros x y. unfold priorityCmp. lia.
    + intros x y z. unfold priorityCmp. lia.
  - intros t Ht Hid. rewrite (Hsame t Ht Hid).
    unfold isTodayOpen in Ho. apply andb_true_iff in Ho as [_ Ho]. now apply negb_true_iff.
Qed.

(** ** Day view: timed and untimed tasks *)

Lemma lc_le_trans a b c :
  localeCompare a b <= 0 -> localeCompare b c <= 0 -> localeCompare a c <= 0.
Proof. intros H1 H2. lc3 a b c. Qed.

Lemma filter_split_perm {A} (P : A -> bool) (l : list A) :
  Permutation l (filter P l ++ filter (fun x => negb (P x)) l).
Proof.
  induction l as [|x l IH]; simpl; [constructor|].
  destruct (P x); simpl; [now constructor|].
  apply Permutation_cons_app. exact IH.
Qed.

Lemma filter_of_filter {A} (f g : A -> bool) (l : list A) :
  filter f (filter g l) = filter (fun x => g x && f x) l.
Proof.
  induction l as [|x l IH]; simpl; [reflexivity|].
  destruct (g x); simpl; [destruct (f x); simpl; now rewrite IH|exact IH].
Qed.

(** The timed section and the untimed section of the day view together
    hold every task of the day exactly once (the attention groups above
    them are separate lists).  The timed section is in ascending order of
    the time string, tasks with the same time string staying in input
    order; the untimed section keeps the input order. *)
Theorem dayView_partition (dayTasks : list Task) :
  Permutation dayTasks (tasksWithTime dayTasks ++ tasksWithoutTime dayTasks)
  /\ StronglySorted (fun a b => localeCompare (timeStr (time a)) (timeStr (time b)) <= 0)
                    (tasksWithTime dayTasks)
  /\ (forall s, filter (fun t => String.eqb (timeStr (time t)) s) (tasksWithTime dayTasks)
          = filter (fun t => truthy (time t) && String.eqb (timeStr (time t)) s) dayTasks)
  /\ Forall (fun t => truthy (time t) = true) (tasksWithTime dayTasks)
  /\ tasksWithoutTime dayTasks = filter (fun t => negb (truthy (time t))) dayTasks.
Proof.
  assert (Ha : forall x y, timeCmp y x = - timeCmp x y) by (intros; apply lc_antisym).
  assert (Ht : forall x y z, timeCmp x y <= 0 -> timeCmp y z <= 0 -> timeCmp x z <= 0)
    by (intros x y z; apply lc_le_trans).
  pose proof (js_sort_perm timeCmp (filter (fun t => truthy (time t)) dayTasks)) as Hp.
  split; [|split; [|split; [|split]]].
  - eapply Permutation_trans; [apply (filter_split_perm (fun t => truthy (time t)))|].
    apply Permutation_app_tail. exact Hp.
  - exact (js_sort_sorted timeCmp Ha Ht _).
  - intros s. unfold tasksWithTime. rewrite js_sort_stable.
    + apply filter_of_filter.
    + intros x y Hx Hy. apply String.eqb_eq in Hx, Hy.
      unfold timeCmp. rewrite Hx, Hy. apply lc_refl.
  - apply Forall_forall. intros t Hin. apply (Permutation_in _ (Permutation_sym Hp)) in Hin.
    now apply filter_In in Hin as [_ H].
  - reflexivity.
Qed.

(** ** List view grouping *)

Definition dateGroup (l : list Task) (d : string) : option (list Task) :=
  match filter (fun t => String.eqb (date t) d) l with [] => None | g => Some g end.

Lemma tasksByDate_snoc l t : tasksByDate (l ++ [t]) = groupStep (tasksByDate l) t.
Proof. unfold tasksByDate. now rewrite fold_left_app. Qed.

Lemma existsb_key_in (k : string) (acc : list (string * list Task)) :
  existsb (fun p => String.eqb (fst p) k) acc = true <-> In k (map fst acc).
Proof.
  rewrite existsb_exists, in_map_iff. split.
  - intros (p & Hp & E). apply String.eqb_eq in E. eauto.
  - intros (p & E & Hp). exists p. split; [exact Hp|]. now apply String.eqb_eq.
Qed.

Lemma groupStep_keys acc t :
  map fst (groupStep acc t)
  = if existsb (fun p => String.eqb (fst p) (date t)) acc then map fst acc
    else map fst acc ++ [date t].
Proof.
  unfold groupStep. destruct (existsb _ acc); [|now rewrite map_app].
  rewrite map_map. apply map_ext. intros [k g]. simpl. now destruct (String.eqb k (date t)).
Qed.

Lemma find_map_append (d k : string) (t : Task) (acc : list (string * list Task)) :
  find (fun p => String.eqb (fst p) d)
    (map (fun p => if String.eqb (fst p) k then (fst p, snd p ++ [t]) else p) acc)
  = option_map (fun p => if String.eqb (fst p) k then (fst p, snd p ++ [t]) else p)
      (find (fun p => String.eqb (fst p) d) acc).
Proof.
  induction acc as [|[k' g] acc IH]; simpl; [reflexivity|].
  destruct (String.eqb k' k) eqn:E1; simpl; destruct (String.eqb k' d) eqn:E2; simpl;
    rewrite ?E1; auto.
Qed.

Lemma find_app_none {A} (f : A -> bool) l x :
  find f l = None -> find f (l ++ [x]) = if f x then Some x else None.
Proof. induction l as [|y l IH]; simpl; [reflexivity|]. destruct (f y); [discriminate|exact IH]. Qed.

Lemma find_app_some {A} (f : A -> bool) l m x :
  find f l = Some x -> find f (l ++ m) = Some x.
Proof. induction l as [|y l IH]; simpl; [discriminate|]. destruct (f y); auto. Qed.

Lemma groupLookup_step d acc t :
  groupLookup d (groupStep acc t)
  = if String.eqb (date t) d
    then Some (match groupLookup d acc with Some g => g | None => [] end ++ [t])
    else groupLookup d acc.
Proof.
  unfold groupLookup, groupStep.
  destruct (existsb (fun p => String.eqb (fst p) (date t)) acc) eqn:Ex.
  - rewrite find_map_append.
    destruct (find (fun p => String.eqb (fst p) d) acc) as [[k g]|] eqn:F; simpl.
    + apply find_some in F as [_ F]. simpl in F.
      destruct (String.eqb_spec k (date t)), (String.eqb_spec (date t) d); subst;
        simpl; auto; apply String.eqb_eq in F; congruence.
    + destruct (String.eqb_spec (date t) d); [|reflexivity]. subst.
      apply existsb_exists in Ex as (p & Hp & E).
      exfalso. apply find_none with (x := p) in F; [|exact Hp]. congruence.
  - destruct (find (fun p => String.eqb (fst p) d) acc) as [[k g]|] eqn:F.
    + rewrite (find_app_some _ _ _ _ F). simpl.
      destruct (String.eqb_spec (date t) d); [|reflexivity]. subst.
      apply find_some in F as [Hin F]. simpl in F.
      assert (existsb (fun p => String.eqb (fst p) (date t)) acc = true)
        by (apply existsb_exists; exists (k, g); auto). congruence.
    + rewrite (find_app_none _ _ _ F). simpl.
      now destruct (String.eqb (date t) d).
Qed.

(** [tasksByDate] gives each date the tasks of that date, in input order,
    and has no entry for a date without tasks. *)
Theorem tasksByDate_lookup (filtered : list Task) (d : string) :
  groupLookup d (tasksByDate filtered) = dateGroup filtered d.
Proof.
  unfold dateGroup. induction filtered as [|t l IH] using rev_ind; [reflexivity|].
  rewrite tasksByDate_snoc, groupLookup_step, filter_app, IH. simpl.
  destruct (String.eqb (date t) d); simpl.
  - now destruct (filter _ l).
  - rewrite app_nil_r. reflexivity.
Qed.

Lemma tasksByDate_keys (filtered : list Task) :
  NoDup (map fst (tasksByDate filtered))
  /\ forall d, In d (map fst (tasksByDate filtered)) <-> exists t, In t filtered /\ date t = d.
Proof.
  induction filtered as [|t l [Hnd Hin]] using rev_ind.
  - split; [constructor|]. intros d. simpl. split; [tauto|]. intros (t & [] & _).
  - rewrite tasksByDate_snoc, groupStep_keys.
    destruct (existsb _ (tasksByDate l)) eqn:Ex.
    + split; [exact Hnd|]. intros d. rewrite Hin. split.
      * intros (u & Hu & E). exists u. split; [apply in_or_app; now left|exact E].
      * intros (u & Hu & E). apply in_app_or in Hu as [Hu|[<-|[]]]; [eauto|].
        apply existsb_key_in, Hin in Ex. now rewrite <- E.
    + split.
      * apply NoDup_app; [exact Hnd|repeat constructor; simpl; tauto|].
        intros x Hx [<-|[]]. apply (proj2 (existsb_key_in _ _)) in Hx. congruence.
      * intros d. rewrite in_app_iff, Hin. simpl. split.
        -- intros [(u & Hu & E)|[<-|[]]].
           ++ exists u. split; [apply in_or_app; now left|exact E].
           ++ exists t. split; [apply in_or_app; right; now left|reflexivity].
        -- intros (u & Hu & E). apply in_app_or in Hu as [Hu|[<-|[]]]; [left; eauto|].
           right. now left.
Qed.

Lemma sorted_nodup_strict (l : list string) :
  StronglySorted (cmp_le localeCompare) l -> NoDup l -> StronglySorted slt l.
Proof.
  induction 1 as [|a l Hs IH Hf]; intros Hnd; constructor.
  - apply IH. now inversion Hnd.
  - inversion Hnd as [|? ? Hna _]; subst.
    rewrite Forall_forall in *. intros b Hb. specialize (Hf b Hb). unfold cmp_le in Hf.
    destruct (lc_cases a b) as [[_ L]|[[E L]|[E _]]]; [exact L| |lia].
    subst. contradiction.
Qed.

(** The date headings of the list view: each date that has a task, once,
    in strictly ascending order. *)
Theorem groupedDates_spec (filtered : list Task) :
  StronglySorted slt (groupedDates filtered)
  /\ forall d, In d (groupedDates filtered) <-> exists t, In t filtered /\ date t = d.
Proof.
  destruct (tasksByDate_keys filtered) as [Hnd Hin].
  pose proof (js_sort_perm localeCompare (map fst (tasksByDate filtered))) as Hp.
  fold (groupedDates filtered) in Hp. split.
  - apply sorted_nodup_strict.
    + apply js_sort_sorted; [apply lc_antisym|apply lc_le_trans].
    + exact (Permutation_NoDup Hp Hnd).
  - intros d. rewrite <- Hin. split; intros H.
    + exact (Permutation_in _ (Permutation_sym Hp) H).
    + exact (Permutation_in _ Hp H).
Qed.

(** ** Saving the task form *)

Lemma str_truthy_false s : str_truthy s = false <-> s = EmptyString.
Proof.
  unfold str_truthy. rewrite negb_false_iff. apply String.eqb_eq.
Qed.

Lemma str_truthy_true s : str_truthy s = true <-> s <> EmptyString.
Proof.
  unfold str_truthy. rewrite negb_true_iff. apply String.eqb_neq.
Qed.

(** ** Quick-add category detection *)

Lemma prefix_app (q r s : string) : String.prefix (q ++ r) s = true -> String.prefix q s = true.
Proof.
  revert s. induction q as [|a q IH]; intros s; [now destruct s|].
  destruct s as [|b s]; simpl; [discriminate|].
  destruct (ascii_dec a b); [apply IH|discriminate].
Qed.

Lemma includes_app (s q r : string) : includes s (q ++ r) = true -> includes s q = true.
Proof.
  induction s as [|c s IH]; intros H.
  - destruct q; simpl in *; [reflexivity|discriminate].
  - assert (Hc : forall q', includes (String c s) q'
                 = if String.prefix q' (String c s) then true else includes s q')
      by reflexivity.
    rewrite Hc in *. destruct (String.prefix (q ++ r) (String c s)) eqn:P.
    + apply prefix_app in P. now rewrite P.
    + destruct (String.prefix q (String c s)); [reflexivity|]. now apply IH.
Qed.

(** Any input mentioning "workout" is filed under work: "workout" contains
    "work", which is tested first, so the health keyword "workout" never
    decides the category. *)
Theorem detectCategory_workout (lower : string) (c : Category) :
  includes lower "workout" = true -> detectCategory lower c = work.
Proof.
  intros H. unfold detectCategory.
  rewrite (includes_app lower "work" "out" H). reflexivity.
Qed.

(** ** Quick-add time detection *)

(** On the hours 1..12 the meridiem conversion is the 12-hour to 24-hour
    clock: "am" gives 0..11 (12 am is 0) and "pm" gives 12..23 (12 pm is
    12). *)
Theorem meridiemHour_12h (h : Z) :
  1 <= h <= 12 ->
  meridiemHour h (Some "am"%string) = h mod 12
  /\ meridiemHour h (Some "pm"%string) = h mod 12 + 12.
Proof.
  intros Hh. unfold meridiemHour. simpl.
  destruct (Z.eqb_spec h 12) as [->|Hn]; [split; reflexivity|].
  rewrite Z.mod_small by lia. split.
  - destruct (Z.eqb_spec h 12); [lia|reflexivity].
  - destruct (Z.ltb_spec h 12); [|lia]. reflexivity.
Qed.

(** ** Adding a goal *)

(** A non-empty target that [parseInt] cannot read (NaN) passes the check
    [parseInt(target) <= 0], so the goal is added with target NaN. *)
Theorem handleAddGoal_nan_target (title target currentMonth : string) (c : Category) :
  trim title <> EmptyString -> target <> EmptyString -> parseInt target = None ->
  handleAddGoal title target currentMonth c = inr (mkGoalInput title None 0 currentMonth c).
Proof.
  intros Ht Hg Hp. unfold handleAddGoal.
  apply str_truthy_true in Ht, Hg. rewrite Ht, Hg, Hp. reflexivity.
Qed.

(** ** Calendar arithmetic and month navigation *)

Lemma yoe_inv yoe doy : 0 <= yoe <= 399 -> 0 <= doy <= 364 ->
  let doe := yoe * 365 + yoe / 4 - yoe / 100 + doy in
  (doe - doe / 1460 + doe / 36524 - doe / 146096) / 365 = yoe.
Proof.
  intros Hy Hd doe.
  pose proof (Z.div_mod yoe 4 ltac:(lia)). pose proof (Z.mod_pos_bound yoe 4 ltac:(lia)).
  pose proof (Z.div_mod yoe 100 ltac:(lia)). pose proof (Z.mod_pos_bound yoe 100 ltac:(lia)).
  set (e := yoe / 4) in *. set (f := yoe / 100) in *.
  set (r5 := yoe mod 4) in *. set (r6 := yoe mod 100) in *.
  pose proof (Z.div_mod doe 1460 ltac:(lia)). pose proof (Z.mod_pos_bound doe 1460 ltac:(lia)).
  pose proof (Z.div_mod doe 36524 ltac:(lia)). pose proof (Z.mod_pos_bound doe 36524 ltac:(lia)).
  pose proof (Z.div_mod doe 146096 ltac:(lia)). pose proof (Z.mod_pos_bound doe 146096 ltac:(lia)).
  set (a := doe / 1460) in *. set (b := doe / 36524) in *. set (c := doe / 146096) in *.
  set (r1 := doe mod 1460) in *. set (r2 := doe mod 36524) in *. set (r3 := doe mod 146096) in *.
  symmetry. apply Z.div_unique with (r := doe - a + b - c - 365 * yoe).
  all: subst doe; clearbody e f r5 r6 a b c r1 r2 r3; lia.
Qed.

Lemma civil_round_trip y m d :
  1 <= m <= 12 -> 1 <= d <= 28 -> civil_from_days (days_from_civil y m d) = (y, m, d).
Proof.
  intros Hm Hd. unfold days_from_civil, civil_from_days. cbv zeta.
  set (y' := if m <=? 2 then y - 1 else y).
  pose proof (Z.div_mod y' 400 ltac:(lia)). pose proof (Z.mod_pos_bound y' 400 ltac:(lia)).
  set (era := y' / 400) in *.
  assert (Hyoe : y' - era * 400 = y' mod 400) by lia.
  rewrite Hyoe. set (yoe := y' mod 400) in *.
  pose proof (Z.mod_pos_bound (m + 9) 12 ltac:(lia)).
  set (mp := (m + 9) mod 12) in *.
  assert (Hmp : mp = if m <=? 2 then m + 9 else m - 3).
  { subst mp. destruct (Z.leb_spec m 2).
    - apply Z.mod_small. lia.
    - rewrite <- (Z.mod_add _ (-1) 12), Z.mod_small; lia. }
  pose proof (Z.div_mod (153 * mp + 2) 5 ltac:(lia)). pose proof (Z.mod_pos_bound (153 * mp + 2) 5 ltac:(lia)).
  set (q := (153 * mp + 2) / 5) in *.
  set (doy := q + d - 1).
  assert (Hdoy : 0 <= doy <= 364) by (subst doy; lia).
  pose proof (yoe_inv yoe doy ltac:(lia) Hdoy) as Hy. cbv zeta in Hy.
  set (doe := yoe * 365 + yoe / 4 - yoe / 100 + doy) in *.
  assert (Hdoe : 0 <= doe < 146097).
  { pose proof (Z.div_mod yoe 4 ltac:(lia)). pose proof (Z.mod_pos_bound yoe 4 ltac:(lia)).
    pose proof (Z.div_mod yoe 100 ltac:(lia)). pose proof (Z.mod_pos_bound yoe 100 ltac:(lia)).
    subst doe. lia. }
  replace (era * 146097 + doe - 719468 + 719468) with (doe + era * 146097) by lia.
  rewrite Z.div_add, (Z.div_small doe) by lia. rewrite Z.add_0_l.
  replace (doe + era * 146097 - era * 146097) with doe by lia.
  rewrite Hy.
  replace (doe - (365 * yoe + yoe / 4 - yoe / 100)) with doy by (subst doe; lia).
  assert (Hmp' : (5 * doy + 2) / 153 = mp).
  { symmetry. apply Z.div_unique with (r := 5 * doy + 2 - 153 * mp); [|lia].
    left. subst doy. rewrite Hmp in *. destruct (Z.leb_spec m 2); lia. }
  rewrite Hmp'. fold q.
  replace (doy - q + 1) with d by (subst doy; lia).
  replace (yoe + era * 400) with y' by lia.
  subst y'. rewrite Hmp. destruct (Z.leb_spec m 2).
  - destruct (Z.ltb_spec (m + 9) 10); [lia|].
    replace (m + 9 - 9) with m by lia. destruct (Z.leb_spec m 2); [|lia].
    f_equal. f_equal. lia.
  - destruct (Z.ltb_spec (m - 3) 10); [|lia].
    replace (m - 3 + 3) with m by lia. destruct (Z.leb_spec m 2); [lia|]. reflexivity.
Qed.



Lemma localDay_newDate tz y m d :
  localDay tz (newDate tz y m d)
  = MakeDay (if (0 <=? y) && (y <=? 99) then 1900 + y else y) m d.
Proof.
  unfold localDay, newDate, msPerDay. cbv zeta.
  rewrite Z.sub_add. apply Z.div_mul. lia.
Qed.

(** [new Date(year, month, 1)] for a year outside the two-digit range is
    the first of the month [month], months beyond 0..11 carried into the
    year. *)
Theorem newDate_first_fields (tz year month : Z) :
  ~ (0 <= year <= 99) ->
  getFullYear tz (newDate tz year month 1) = year + month / 12
  /\ getMonth tz (newDate tz year month 1) = month mod 12
  /\ getDate tz (newDate tz year month 1) = 1.
Proof.
  intros Hy. unfold getFullYear, getMonth, getDate.
  rewrite localDay_newDate.
  replace ((0 <=? year) && (year <=? 99)) with false
    by (symmetry; apply andb_false_iff; destruct (Z.leb_spec 0 year); [right|left]; lia).
  unfold MakeDay. rewrite Z.add_simpl_r.
  pose proof (Z.mod_pos_bound month 12 ltac:(lia)).
  rewrite civil_round_trip by lia. repeat split; lia.
Qed.

















(** Near year 100 the two-digit rule breaks the round trip: from January
    of year 100, "previous month" shows December of year 99 and "next
    month" from there shows January 2000. *)
Theorem month_navigation_year_100 (tz t : Z) :
  getFullYear tz t = 100 -> getMonth tz t = 0 ->
  getFullYear tz (previousMonth tz t) = 99 /\ getMonth tz (previousMonth tz t) = 11
  /\ getFullYear tz (nextMonth tz (previousMonth tz t)) = 2000
  /\ getMonth tz (nextMonth tz (previousMonth tz t)) = 0.
Proof.
  intros Hy Hm.
  assert (Hp : getFullYear tz (previousMonth tz t) = 99 /\ getMonth tz (previousMonth tz t) = 11).
  { unfold previousMonth. rewrite Hy, Hm.
    destruct (newDate_first_fields tz 100 (0 - 1) ltac:(lia)) as (A & B & _).
    rewrite A, B. split; reflexivity. }
  destruct Hp as [Py Pm]. split; [exact Py|]. split; [exact Pm|].
  unfold nextMonth. rewrite Py, Pm.
  unfold getFullYear, getMonth. rewrite localDay_newDate.
  split; vm_compute; reflexivity.
Qed.

(** ** Adding and editing tasks *)

(** A new task with a fresh id keeps the ids unique, and deleting it
    again gives back the list as it was. *)
Theorem addTask_delete_round_trip (x : TaskInput) (newId created : string) (tasks : list Task) :
  NoDup (map id tasks) -> ~ In newId (map id tasks) ->
  NoDup (map id (handleSaveTask None x newId created tasks))
  /\ In (newTask x newId created) (handleSaveTask None x newId created tasks)
  /\ deleteTask newId (handleSaveTask None x newId created tasks) = tasks.
Proof.
  intros Hnd Hf. simpl. unfold addTask. split; [|split].
  - rewrite map_app. simpl. apply NoDup_app; [exact Hnd|repeat constructor; simpl; tauto|].
    intros y Hy [<-|[]]. contradiction.
  - apply in_or_app. right. now left.
  - unfold deleteTask. rewrite filter_app. simpl. rewrite String.eqb_refl. simpl.
    rewrite app_nil_r. apply forallb_filter_id, forallb_forall. intros t Ht.
    apply negb_true_iff, String.eqb_neq. intros E. apply Hf. rewrite <- E. now apply in_map.
Qed.

(** Saving an edited task keeps every id in place and replaces the task by
    the form's values, keeping only its id and creation time. *)
Theorem editTask_replaces (e : Task) (x : TaskInput) (newId created : string) (tasks : list Task) :
  NoDup (map id tasks) -> In e tasks ->
  map id (handleSaveTask (Some e) x newId created tasks) = map id tasks
  /\ In (newTask x (id e) (createdAt e)) (handleSaveTask (Some e) x newId created tasks)
  /\ (forall t, In t (handleSaveTask (Some e) x newId created tasks) -> id t = id e ->
        t = newTask x (id e) (createdAt e)).
Proof.
  intros Hnd He. simpl. unfold updateTask.
  assert (Hsame : forall t, In t tasks -> id t = id e -> t = e).
  { intros t Ht Hid. clear -Hnd Ht He Hid. induction tasks as [|y l IH]; [destruct Ht|].
    inversion Hnd as [|? ? Hy Hl]; subst.
    destruct Ht as [<-|Ht], He as [<-|He]; auto.
    - exfalso. apply Hy. rewrite Hid. now apply in_map.
    - exfalso. apply Hy. rewrite <- Hid. now apply in_map. }
  assert (Hsp : spread e (inputUpdate x) = newTask x (id e) (createdAt e)) by reflexivity.
  split; [|split].
  - rewrite map_map. apply map_ext. intros t.
    destruct (String.eqb_spec (id t) (id e)); reflexivity.
  - apply in_map_iff. exists e. rewrite String.eqb_refl. split; [exact Hsp|exact He].
  - intros t Ht Hid. apply in_map_iff in Ht as (t0 & <- & Ht0).
    destruct (String.eqb_spec (id t0) (id e)) as [E|E].
    + rewrite (Hsame t0 Ht0 E). exact Hsp.
    + contradiction.
Qed.

(** ** Instances of the further properties *)

Lemma updateTask_keeps_ids_witness :
  let tasks := [mkTask "1" "Gym" "" "2024-06-03" None high health false None None None "";
                mkTask "2" "Report" "" "2024-06-03" (Some "09:00"%string) urgent work false None None None ""] in
  let u := mkTaskUpdate None (Some "Run"%string) None None None None None None None None None None in
  u_id u = None
  /\ map id (updateTask "1" u tasks) = map id tasks
  /\ (forall t, In t tasks -> id t <> "1"%string -> In t (updateTask "1" u tasks)).
Proof.
  intros tasks u. split; [reflexivity|].
  apply updateTask_keeps_ids. reflexivity.
Defined.

Lemma handleTaskDrop_moves_witness :
  let t := mkTask "1" "Gym" "" "2024-06-03" None high health false None None None "" in
  let tasks := [t; mkTask "2" "Report" "" "2024-06-03" (Some "09:00"%string) urgent work false None None None ""] in
  In t tasks
  /\ In (spread t (dateUpdate "2024-06-05")) (tasksOn "2024-06-05" (handleTaskDrop (id t) "2024-06-05" tasks))
  /\ (forall d u, d <> "2024-06-05"%string ->
        In u (tasksOn d (handleTaskDrop (id t) "2024-06-05" tasks)) -> id u <> id t).
Proof.
  intros t tasks.
  assert (H : In t tasks) by (simpl; left; reflexivity).
  split; [exact H|]. exact (handleTaskDrop_moves t "2024-06-05" tasks H).
Defined.

Lemma goal_increment_decrement_witness :
  let goals := [mkGoal "a" "Read" 3 1 "2024-06" learning; mkGoal "b" "Run" 2 0 "2024-06" health] in
  let g := mkGoal "a" "Read" 3 1 "2024-06" learning in
  NoDup (map gid goals) /\ In g goals /\ goal_in_bounds g
  /\ (current g < target g -> decrementGoal (gid g) (incrementGoal (gid g) goals) = goals)
  /\ (0 < current g -> incrementGoal (gid g) (decrementGoal (gid g) goals) = goals).
Proof.
  intros goals g.
  assert (Hnd : NoDup (map gid goals)).
  { simpl. constructor; [simpl; intros [H|[]]; discriminate|].
    constructor; [simpl; intros []|constructor]. }
  assert (Hin : In g goals) by (simpl; left; reflexivity).
  assert (Hb : goal_in_bounds g) by (unfold goal_in_bounds; simpl; lia).
  split; [exact Hnd|]. split; [exact Hin|]. split; [exact Hb|].
  exact (goal_increment_decrement goals g Hnd Hin Hb).
Defined.

Lemma timer_ok_preserved_witness :
  let s := mkTimer 60 true false 2 in
  timer_ok s
  /\ timer_ok (tick s) /\ timer_ok (toggleTimer s) /\ timer_ok (resetTimer s)
  /\ timer_ok (skipTimer s).
Proof.
  intros s. assert (H : timer_ok s) by (unfold timer_ok, phaseLength; simpl; lia).
  split; [exact H|]. exact (timer_ok_preserved s H).
Defined.

Lemma toggleTimer_twice_witness :
  let s := mkTimer 120 false true 1 in
  timer_ok s /\ toggleTimer (toggleTimer s) = s.
Proof.
  intros s. assert (H : timer_ok s) by (unfold timer_ok, phaseLength; simpl; lia).
  split; [exact H|]. exact (toggleTimer_twice s H).
Defined.

Lemma streak_monotone_witness :
  let tasks := [mkTask "1" "Gym" "" "1970-01-01" None high health true None None None ""] in
  let tasks' := [mkTask "1" "Gym" "" "1970-01-01" None high health true None None None "";
                 mkTask "2" "Run" "" "1969-12-31" None low health true None None None ""] in
  (forall t, In t tasks -> completed t = true -> In t tasks')
  /\ streakLoop newYork2024 tasks 0 1 /\ streakLoop newYork2024 tasks' 0 2 /\ (1 <= 2)%nat.
Proof.
  intros tasks tasks'.
  assert (H1 : forall t, In t tasks -> completed t = true -> In t tasks').
  { intros t [<-|[]] _. simpl. left. reflexivity. }
  assert (H2 : streakLoop newYork2024 tasks 0 1) by (apply (streakFuel_sound 5); vm_compute; reflexivity).
  assert (H3 : streakLoop newYork2024 tasks' 0 2) by (apply (streakFuel_sound 5); vm_compute; reflexivity).
  exact (conj H1 (conj H2 (conj H3 (streak_monotone newYork2024 tasks tasks' 0 1 2 H1 H2 H3)))).
Defined.

Lemma focusQueue_complete_next_witness :
  let a := mkTask "1" "Gym" "" "2024-06-03" None high health false None None None "" in
  let b := mkTask "2" "Report" "" "2024-06-03" (Some "09:00"%string) urgent work false None None None "" in
  NoDup (map id [a; b]) /\ focusQueue "2024-06-03" [a; b] = b :: [a]
  /\ focusQueue "2024-06-03" (toggleTaskComplete (id b) [a; b]) = [a].
Proof.
  intros a b.
  assert (Hnd : NoDup (map id [a; b])).
  { simpl. constructor; [simpl; intros [H|[]]; discriminate|].
    constructor; [simpl; intros []|constructor]. }
  assert (Hq : focusQueue "2024-06-03" [a; b] = b :: [a]) by (vm_compute; reflexivity).
  exact (conj Hnd (conj Hq (focusQueue_complete_next "2024-06-03" [a; b] b [a] Hnd Hq))).
Defined.

Lemma detectCategory_workout_witness :
  includes "morning workout" "workout" = true
  /\ detectCategory "morning workout" personal = work.
Proof.
  assert (H : includes "morning workout" "workout" = true) by (vm_compute; reflexivity).
  split; [exact H|]. exact (detectCategory_workout "morning workout" personal H).
Defined.

Lemma meridiemHour_12h_witness :
  1 <= 12 <= 12
  /\ meridiemHour 12 (Some "am"%string) = 12 mod 12
  /\ meridiemHour 12 (Some "pm"%string) = 12 mod 12 + 12.
Proof.
  assert (H : 1 <= 12 <= 12) by lia.
  split; [exact H|]. exact (meridiemHour_12h 12 H).
Defined.

Lemma handleAddGoal_nan_target_witness :
  trim "Read books" <> EmptyString /\ "twelve"%string <> EmptyString /\ parseInt "twelve" = None
  /\ handleAddGoal "Read books" "twelve" "2024-06" learning
     = inr (mkGoalInput "Read books" None 0 "2024-06" learning).
Proof.
  assert (H1 : trim "Read books" <> EmptyString) by (intros H; vm_compute in H; discriminate H).
  assert (H2 : "twelve"%string <> EmptyString) by (intros H; discriminate H).
  assert (H3 : parseInt "twelve" = None) by (vm_compute; reflexivity).
  exact (conj H1 (conj H2 (conj H3
    (handleAddGoal_nan_target "Read books" "twelve" "2024-06" learning H1 H2 H3)))).
Defined.


Lemma month_navigation_year_100_witness :
  getFullYear 0 (newDate 0 100 0 15) = 100 /\ getMonth 0 (newDate 0 100 0 15) = 0
  /\ getFullYear 0 (previousMonth 0 (newDate 0 100 0 15)) = 99
  /\ getMonth 0 (previousMonth 0 (newDate 0 100 0 15)) = 11
  /\ getFullYear 0 (nextMonth 0 (previousMonth 0 (newDate 0 100 0 15))) = 2000
  /\ getMonth 0 (nextMonth 0 (previousMonth 0 (newDate 0 100 0 15))) = 0.
Proof.
  assert (H1 : getFullYear 0 (newDate 0 100 0 15) = 100) by (vm_compute; reflexivity).
  assert (H2 : getMonth 0 (newDate 0 100 0 15) = 0) by (vm_compute; reflexivity).
  exact (conj H1 (conj H2 (month_navigation_year_100 0 (newDate 0 100 0 15) H1 H2))).
Defined.

Lemma addTask_delete_round_trip_witness :
  let x := mkTaskInput "Call mom" "" "2024-06-03" None high personal false None false None in
  let tasks := [mkTask "1" "Gym" "" "2024-06-03" None high health false None None None "";
                mkTask "2" "Report" "" "2024-06-03" (Some "09:00"%string) urgent work false None None None ""] in
  NoDup (map id tasks) /\ ~ In "3"%string (map id tasks)
  /\ NoDup (map id (handleSaveTask None x "3" "2024-06-01T10:00:00.000Z" tasks))
  /\ In (newTask x "3" "2024-06-01T10:00:00.000Z") (handleSaveTask None x "3" "2024-06-01T10:00:00.000Z" tasks)
  /\ deleteTask "3" (handleSaveTask None x "3" "2024-06-01T10:00:00.000Z" tasks) = tasks.
Proof.
  intros x tasks.
  assert (Hnd : NoDup (map id tasks)).
  { simpl. constructor; [simpl; intros [H|[]]; discriminate|].
    constructor; [simpl; intros []|constructor]. }
  assert (Hf : ~ In "3"%string (map id tasks)) by (simpl; intros [H|[H|[]]]; discriminate).
  exact (conj Hnd (conj Hf (addTask_delete_round_trip x "3" "2024-06-01T10:00:00.000Z" tasks Hnd Hf))).
Defined.

Lemma editTask_replaces_witness :
  let e := mkTask "1" "Gym" "" "2024-06-03" (Some "07:00"%string) high health false None None None "" in
  let x := mkTaskInput "Gym" "legs" "2024-06-04" None medium health false None true None in
  let tasks := [e; mkTask "2" "Report" "" "2024-06-03" (Some "09:00"%string) urgent work false None None None ""] in
  NoDup (map id tasks) /\ In e tasks
  /\ map id (handleSaveTask (Some e) x "3" "" tasks) = map id tasks
  /\ In (newTask x (id e) (createdAt e)) (handleSaveTask (Some e) x "3" "" tasks)
  /\ (forall t, In t (handleSaveTask (Some e) x "3" "" tasks) -> id t = id e ->
        t = newTask x (id e) (createdAt e)).
Proof.
  intros e x tasks.
  assert (Hnd : NoDup (map id tasks)).
  { simpl. constructor; [simpl; intros [H|[]]; discriminate|].
    constructor; [simpl; intros []|constructor]. }
  assert (He : In e tasks) by (simpl; left; reflexivity).
  exact (conj Hnd (conj He (editTask_replaces e x "3" "" tasks Hnd He))).
Defined.

Lemma streak_fixed_zone_days_witness :
  offBefore (mkZone 120 120 0) = offAfter (mkZone 120 120 0)
  /\ (streakLoop (mkZone 120 120 0)
        [mkTask "1" "a" "" "2024-06-03" None low work true None None None "";
         mkTask "2" "b" "" "2024-06-02" None low work true None None None ""]
        1717416000000 2
      <-> (forall i, (i < 2)%nat ->
             dayHasCompleted
               [mkTask "1" "a" "" "2024-06-03" None low work true None None None "";
                mkTask "2" "b" "" "2024-06-02" None low work true None None None ""]
               (dateKey (1717416000000 - Z.of_nat i * msPerDay)) = true)
          /\ dayHasCompleted
               [mkTask "1" "a" "" "2024-06-03" None low work true None None None "";
                mkTask "2" "b" "" "2024-06-02" None low work true None None None ""]
               (dateKey (1717416000000 - Z.of_nat 2 * msPerDay)) = false).
Proof.
  assert (Hz : offBefore (mkZone 120 120 0) = offAfter (mkZone 120 120 0)) by reflexivity.
  split; [exact Hz|]. apply (streak_fixed_zone_days (mkZone 120 120 0) Hz).
Defined.
